(** * VCF Venn Diagram Plotter: the counter and the renderer's calls

    A shallow embedding of [vcf_venn_plotter.py].  The table that
    [pd.read_csv] returns is a record of a header and rows of cells; the
    [counts] dict is a [gmap string nat]; printing, [sys.exit], uncaught
    exceptions and the calls into the plotting libraries are threaded
    through a small state-and-exit monad over a [world]; what the
    libraries do with a call is a parameter, as is [pd.read_csv]. *)

From Stdlib Require Import Ascii String ZArith QArith Lia.
From stdpp Require Import base decidable option list gmap strings pretty fin_maps.

Open Scope Z_scope.
Open Scope nat_scope.
Open Scope string_scope.
Open Scope list_scope.

(** ** The table as pandas presents it *)

(** A parsed cell.  A column of integers gives [CInt]; a column of
    [True]/[False] gives [CBool]; a numeric column with a missing field
    is a column of floats, [CFloat] for the finite ones and [CNaN] for the
    missing field (an infinity equals no integer either and is a [CNaN]
    here); in a column that pandas keeps as text every field, also ["1"],
    is a [CStr]. *)
Inductive cell : Type :=
  | CInt (z : Z)
  | CBool (b : bool)
  | CFloat (q : Q)
  | CNaN
  | CStr (s : string).

(** [x == k] for a cell [x] and an integer literal [k]. *)
Definition cell_eq (x : cell) (k : Z) : bool :=
  match x with
  | CInt z => bool_decide (z = k)
  | CBool b => bool_decide ((if b then 1%Z else 0%Z) = k)
  | CFloat q => Qeq_bool q (inject_Z k)
  | CNaN => false
  | CStr _ => false
  end.

(** The table: the header and the rows of cells under it.  [pd.read_csv]
    renames repeated header names, so a name stands for one column. *)
Record DataFrame : Type := mkDataFrame {
  columns : list string;
  rows : list (list cell)
}.

(** Position of the first column called [name]. *)
Fixpoint column_index (name : string) (cols : list string) : option nat :=
  match cols with
  | [] => None
  | c :: cols' =>
      if bool_decide (c = name) then Some 0
      else S <$> column_index name cols'
  end.

(** The field of a row under a column position; a line shorter than the
    header is padded with missing values. *)
Definition field (r : list cell) (i : nat) : cell := default CNaN (r !! i).

(** [df[name]]: the column as a series, [None] for the [KeyError] of a
    name that is not in the header. *)
Definition df_col (df : DataFrame) (name : string) : option (list cell) :=
  i ← column_index name (columns df);
  Some ((λ r, field r i) <$> rows df).

(** [series == k], element by element. *)
Definition series_eq (s : list cell) (k : Z) : list bool :=
  (λ x, cell_eq x k) <$> s.

(** [m1 & m2] on boolean series of one length. *)
Definition mask_and (m1 m2 : list bool) : list bool :=
  zip_with andb m1 m2.

(** [df[mask]]: the rows whose mask entry is true. *)
Fixpoint df_loc (rs : list (list cell)) (mask : list bool) : list (list cell) :=
  match rs, mask with
  | r :: rs', b :: mask' => if b then r :: df_loc rs' mask' else df_loc rs' mask'
  | _, _ => []
  end.

(** [len(df[mask])]. *)
Definition len_loc (df : DataFrame) (mask : list bool) : nat :=
  length (df_loc (rows df) mask).

(** ** Caller selection *)

Definition possible_callers : list string :=
  ["Bcftools"; "FreeBayes"; "GATK"; "bcftools"; "freebayes"; "gatk"].

(** One turn of the loop over [possible_callers]: both lists grow by the
    caller when it is a column of the table. *)
Definition select_step (cols : list string) (acc : list string * list string)
    (caller : string) : list string * list string :=
  if bool_decide (caller ∈ cols)
  then (acc.1 ++ [caller], acc.2 ++ [caller])
  else acc.

(** The pair [(caller_columns, caller_names)] after the loop. *)
Definition select_callers (cols : list string) : list string * list string :=
  foldl (select_step cols) ([], []) possible_callers.

(** ** Effects: printing, exits, exceptions and the figure *)

(** The exceptions the modelled code can leave uncaught: those of its own
    lookups, and whatever a call to the plotting libraries raises, with
    its text. *)
Inductive py_exception : Type :=
  | KeyError (key : string)
  | IndexError (index : nat)
  | ValueError (msg : string)
  | LibraryError (msg : string).

(** How a call ends: with a value, by [sys.exit(code)], or by an
    exception that nothing catches. *)
Inductive outcome (A : Type) : Type :=
  | Return (a : A)
  | SysExit (code : Z)
  | Uncaught (e : py_exception).
Arguments Return {A} a.
Arguments SysExit {A} code.
Arguments Uncaught {A} e.

(** A call that draws on the axes, with the arguments the code passes.
    [venn3] and the circle calls are given no [normalize_to]. *)
Inductive draw_call : Type :=
  | venn2 (subsets : nat * nat * nat) (set_labels : list string)
          (alpha : Q) (normalize_to : option string)
  | venn3 (subsets : nat * nat * nat * nat * nat * nat * nat)
          (set_labels : list string) (set_colors : string * string * string)
          (alpha : Q)
  | venn2_circles (subsets : nat * nat * nat) (linestyle : string) (linewidth : Q)
  | venn3_circles (subsets : nat * nat * nat * nat * nat * nat * nat)
          (linestyle : string) (linewidth : Q).

(** The [normalize_to] keyword a library call receives from the code. *)
Definition normalize_to_of (c : draw_call) : option string :=
  match c with
  | venn2 _ _ _ nt => nt
  | venn3 _ _ _ _ => None
  | venn2_circles _ _ _ => None
  | venn3_circles _ _ _ => None
  end.

Record saved_file : Type := mkSaved {
  saved_path : string;
  saved_dpi : Z;
  saved_calls : list draw_call
}.

(** What a run has written so far: the lines printed on each stream, the
    library calls made on the current axes, and the image files saved. *)
Record world : Type := mkWorld {
  stdout : list string;
  stderr : list string;
  figure : list draw_call;
  saved : list saved_file
}.

Definition empty_world : world := mkWorld [] [] [] [].

(** A call that leaves the program for matplotlib or matplotlib-venn:
    [plt.subplots] (line 250), a drawing call together with the styling of
    what it returns (lines 271-299 and 308-331), and the layout calls with
    [plt.savefig] on the figure drawn so far (lines 338-343). *)
Inductive lib_call : Type :=
  | plt_subplots (figsize : Q * Q)
  | venn_call (c : draw_call)
  | plt_savefig (path : string) (dpi : Z) (calls : list draw_call).

(** What the plotting libraries do with each call: [None] when the call
    returns, the text of the exception when it raises.  A rendering makes
    each of its calls once, so a function of the call also stands for
    libraries whose answer depends on the calls made before. *)
Definition library : Type := lib_call → option string.

Definition py (A : Type) : Type := world → outcome A * world.

#[global] Instance py_ret : MRet py := λ A a w, (Return a, w).

#[global] Instance py_bind : MBind py := λ A B f m w,
  match m w with
  | (Return a, w') => f a w'
  | (SysExit code, w') => (SysExit code, w')
  | (Uncaught e, w') => (Uncaught e, w')
  end.

Definition print (line : string) : py unit := λ w,
  (Return (), mkWorld (stdout w ++ [line]) (stderr w) (figure w) (saved w)).

Definition print_stderr (line : string) : py unit := λ w,
  (Return (), mkWorld (stdout w) (stderr w ++ [line]) (figure w) (saved w)).

Definition sys_exit {A : Type} (code : Z) : py A := λ w, (SysExit code, w).

Definition raise {A : Type} (e : py_exception) : py A := λ w, (Uncaught e, w).

(** A drawing call: it raises what the library raises, or it returns and
    the call is on the axes. *)
Definition draw (lib : library) (c : draw_call) : py unit := λ w,
  match lib (venn_call c) with
  | Some e => (Uncaught (LibraryError e), w)
  | None => (Return (), mkWorld (stdout w) (stderr w) (figure w ++ [c]) (saved w))
  end.

(** [plt.subplots]: it raises, or there is a new figure with empty axes. *)
Definition subplots (lib : library) (figsize : Q * Q) : py unit := λ w,
  match lib (plt_subplots figsize) with
  | Some e => (Uncaught (LibraryError e), w)
  | None => (Return (), mkWorld (stdout w) (stderr w) [] (saved w))
  end.

(** [plt.savefig]: it raises, or the figure drawn so far is in the file. *)
Definition savefig (lib : library) (path : string) (dpi : Z) : py unit := λ w,
  match lib (plt_savefig path dpi (figure w)) with
  | Some e => (Uncaught (LibraryError e), w)
  | None => (Return (), mkWorld (stdout w) (stderr w) (figure w)
                                (saved w ++ [mkSaved path dpi (figure w)]))
  end.

(** ** Python built-ins used by the code *)

Definition newline : string := String (Ascii.ascii_of_nat 10) "".

(** One character inside [repr] of a [str] quoted with [q]: backslash,
    the quote, tab, newline and carriage return have their escapes, the
    other ASCII control characters are written [\xNN], and every other
    byte stands for itself (the bytes of a printable non-ASCII character
    do; CPython escapes the non-printable ones). *)
Definition hex_digit (n : nat) : Ascii.ascii :=
  default "0"%char (String.get n "0123456789abcdef").

Definition repr_char (q c : Ascii.ascii) : string :=
  let n := Ascii.nat_of_ascii c in
  if bool_decide (c = "\"%char) then "\\"
  else if bool_decide (c = q) then String "\"%char (String q "")
  else if bool_decide (n = 9) then "\t"
  else if bool_decide (n = 10) then "\n"
  else if bool_decide (n = 13) then "\r"
  else if bool_decide (n < 32 ∨ n = 127)
       then "\x" +:+ String (hex_digit (n / 16)) (String (hex_digit (n mod 16)) "")
  else String c "".

Fixpoint repr_body (q : Ascii.ascii) (s : string) : string :=
  match s with
  | EmptyString => ""
  | String c s' => repr_char q c +:+ repr_body q s'
  end.

Fixpoint has_char (c : Ascii.ascii) (s : string) : bool :=
  match s with
  | EmptyString => false
  | String c' s' => bool_decide (c' = c) || has_char c s'
  end.

(** [repr(s)]: double quotes when [s] holds a single quote and no double
    quote, single quotes otherwise. *)
Definition py_repr_str (s : string) : string :=
  let dq := Ascii.ascii_of_nat 34 in
  let q := if has_char "'"%char s && negb (has_char dq s) then dq else "'"%char in
  String q (repr_body q s) +:+ String q "".

(** [repr] of a list of [str], as an f-string shows it. *)
Definition py_repr_list (l : list string) : string :=
  "[" +:+ String.concat ", " (py_repr_str <$> l) +:+ "]".

(** [d[key]] on a dict. *)
Definition getitem (d : gmap string nat) (key : string) : py nat :=
  match d !! key with
  | Some v => mret v
  | None => raise (KeyError key)
  end.

(** [l[i]] on a list. *)
Definition getitem_list (l : list string) (i : nat) : py string :=
  match l !! i with
  | Some v => mret v
  | None => raise (IndexError i)
  end.

(** [max] and [min] of a list; [None] is the [ValueError] on an empty one. *)
Definition py_max (l : list nat) : option nat :=
  match l with
  | [] => None
  | x :: l' => Some (foldl Nat.max x l')
  end.

Definition py_min (l : list nat) : option nat :=
  match l with
  | [] => None
  | x :: l' => Some (foldl Nat.min x l')
  end.

Definition or_value_error (o : option nat) (msg : string) : py nat :=
  match o with
  | Some v => mret v
  | None => raise (ValueError msg)
  end.

(** ** Cosmetic option converters *)

Definition r_to_mpl_colors : gmap string string :=
  list_to_map
    [("deepskyblue4", "#00688B"); ("deepskyblue3", "#009ACD");
     ("deepskyblue2", "#00B2EE"); ("deepskyblue1", "#00BFFF");
     ("deepskyblue", "#00BFFF"); ("skyblue4", "#4A708B");
     ("skyblue3", "#6CA6CD"); ("skyblue2", "#7EC0EE");
     ("skyblue1", "#87CEFF"); ("steelblue4", "#36648B");
     ("steelblue3", "#4F94CD"); ("steelblue2", "#5CACEE");
     ("steelblue1", "#63B8FF"); ("dodgerblue4", "#104E8B");
     ("dodgerblue3", "#1874CD"); ("dodgerblue2", "#1C86EE");
     ("dodgerblue1", "#1E90FF")].

Definition convert_r_color_to_matplotlib (color : string) : string :=
  default color (r_to_mpl_colors !! color).

Definition convert_line_style (outline : string) : string :=
  let style_map : gmap string string :=
    list_to_map [("none", ""); ("solid", "-"); ("dashed", "--"); ("dotted", ":")] in
  default "-" (style_map !! outline).

(** The parsed command line, for the options the modelled calls use. *)
Record Args : Type := mkArgs {
  input : string;
  output : string;
  color1 : string;
  color2 : string;
  color3 : string;
  outline : string;
  outline_width : Q;
  dpi : Z;
  alpha : Q;
  figsize : Q * Q
}.

(** The dict that the counter returns. *)
Record data : Type := mkData {
  caller_names : list string;
  counts : gmap string nat;
  num_callers : nat
}.

(** ** The counter *)

(** [df[name]] inside the program. *)
Definition getcol (df : DataFrame) (name : string) : py (list cell) :=
  match df_col df name with
  | Some s => mret s
  | None => raise (KeyError name)
  end.

(** [len(df[(df[c1] == a) & (df[c2] == b)])]. *)
Definition count2 (df : DataFrame) (c1 c2 : string) (a b : Z) : py nat :=
  s1 ← getcol df c1;
  s2 ← getcol df c2;
  mret (len_loc df (mask_and (series_eq s1 a) (series_eq s2 b))).

(** [len(df[(df[c1] == a) & (df[c2] == b) & (df[c3] == c)])]. *)
Definition count3 (df : DataFrame) (c1 c2 c3 : string) (a b c : Z) : py nat :=
  s1 ← getcol df c1;
  s2 ← getcol df c2;
  s3 ← getcol df c3;
  mret (len_loc df (mask_and (mask_and (series_eq s1 a) (series_eq s2 b))
                             (series_eq s3 c))).

(** Lines 182-221: the [counts] dict, filled for two or for three caller
    columns and left empty for any other number. *)
Definition count_combinations (df : DataFrame) (caller_columns : list string)
    : py (gmap string nat) :=
  let counts : gmap string nat := ∅ in
  match caller_columns with
  | [caller1; caller2] =>
      n ← count2 df caller1 caller2 1 0;
      let counts := <["10" := n]> counts in
      n ← count2 df caller1 caller2 0 1;
      let counts := <["01" := n]> counts in
      n ← count2 df caller1 caller2 1 1;
      let counts := <["11" := n]> counts in
      mret counts
  | [caller1; caller2; caller3] =>
      n ← count3 df caller1 caller2 caller3 1 0 0;
      let counts := <["100" := n]> counts in
      n ← count3 df caller1 caller2 caller3 0 1 0;
      let counts := <["010" := n]> counts in
      n ← count3 df caller1 caller2 caller3 0 0 1;
      let counts := <["001" := n]> counts in
      n ← count3 df caller1 caller2 caller3 1 1 0;
      let counts := <["110" := n]> counts in
      n ← count3 df caller1 caller2 caller3 1 0 1;
      let counts := <["101" := n]> counts in
      n ← count3 df caller1 caller2 caller3 0 1 1;
      let counts := <["011" := n]> counts in
      n ← count3 df caller1 caller2 caller3 1 1 1;
      let counts := <["111" := n]> counts in
      mret counts
  | _ => mret counts
  end.

(** Lines 163-227: everything after the table has been read. *)
Definition count_table (df : DataFrame) : py data :=
  let '(caller_columns, caller_names) := select_callers (columns df) in
  if bool_decide (length caller_columns < 2) then
    print_stderr "Error: Could not find at least 2 caller columns in TSV file";;
    print_stderr ("Available columns: " +:+ py_repr_list (columns df));;
    sys_exit 1
  else
    print ("Found " +:+ pretty (length caller_columns) +:+ " callers: "
             +:+ String.concat ", " caller_names);;
    counts ← count_combinations df caller_columns;
    mret (mkData caller_names counts (length caller_columns)).

(** ** The renderer *)

(** Lines 254-263: the rescaling hint, computed for three callers only. *)
Definition normalize_hint (counts : gmap string nat) (num_callers : nat)
    : py (option string) :=
  let normalize_to : option string := None in
  if bool_decide (num_callers = 3) then
    c100 ← getitem counts "100";
    c010 ← getitem counts "010";
    c001 ← getitem counts "001";
    c110 ← getitem counts "110";
    c101 ← getitem counts "101";
    c011 ← getitem counts "011";
    c111 ← getitem counts "111";
    let all_counts := [c100; c010; c001; c110; c101; c011; c111] in
    max_count ← (if bool_decide (all_counts ≠ [])
                 then or_value_error (py_max all_counts) "max() arg is an empty sequence"
                 else mret 1);
    min_nonzero ← (if existsb (λ c, bool_decide (0 < c)) all_counts
                   then or_value_error
                          (py_min (filter (λ c, 0 < c) all_counts))
                          "min() arg is an empty sequence"
                   else mret 1);
    if bool_decide (10 * min_nonzero < max_count)
    then mret (Some "region")
    else mret normalize_to
  else mret normalize_to.

(** Lines 265-331: the library calls for two or for three callers; any
    other number of callers draws nothing. *)
Definition draw_diagram (lib : library) (d : data) (args : Args)
    (normalize_to : option string) : py unit :=
  let linestyle := convert_line_style (outline args) in
  let color1 := convert_r_color_to_matplotlib (color1 args) in
  let color2 := convert_r_color_to_matplotlib (color2 args) in
  let color3 := convert_r_color_to_matplotlib (color3 args) in
  if bool_decide (num_callers d = 2) then
    c10 ← getitem (counts d) "10";
    c01 ← getitem (counts d) "01";
    c11 ← getitem (counts d) "11";
    let subsets := (c10, c01, c11) in
    draw lib (venn2 subsets (caller_names d) (alpha args) normalize_to);;
    if bool_decide (linestyle ≠ "")
    then draw lib (venn2_circles subsets linestyle (outline_width args))
    else mret ()
  else if bool_decide (num_callers d = 3) then
    c100 ← getitem (counts d) "100";
    c010 ← getitem (counts d) "010";
    c110 ← getitem (counts d) "110";
    c001 ← getitem (counts d) "001";
    c101 ← getitem (counts d) "101";
    c011 ← getitem (counts d) "011";
    c111 ← getitem (counts d) "111";
    let subsets := (c100, c010, c110, c001, c101, c011, c111) in
    draw lib (venn3 subsets (caller_names d) (color1, color2, color3) (alpha args));;
    if bool_decide (linestyle ≠ "")
    then draw lib (venn3_circles subsets linestyle (outline_width args))
    else mret ()
  else mret ().

(** Lines 346-359: the textual summary. *)
Definition print_summary (d : data) : py unit :=
  print (newline +:+ "Variant counts:");;
  if bool_decide (num_callers d = 2) then
    n0 ← getitem_list (caller_names d) 0;
    c10 ← getitem (counts d) "10";
    print ("  Unique to " +:+ n0 +:+ ": " +:+ pretty c10);;
    n1 ← getitem_list (caller_names d) 1;
    c01 ← getitem (counts d) "01";
    print ("  Unique to " +:+ n1 +:+ ": " +:+ pretty c01);;
    c11 ← getitem (counts d) "11";
    print ("  Common to both: " +:+ pretty c11)
  else if bool_decide (num_callers d = 3) then
    n0 ← getitem_list (caller_names d) 0;
    c100 ← getitem (counts d) "100";
    print ("  Unique to " +:+ n0 +:+ ": " +:+ pretty c100);;
    n1 ← getitem_list (caller_names d) 1;
    c010 ← getitem (counts d) "010";
    print ("  Unique to " +:+ n1 +:+ ": " +:+ pretty c010);;
    n2 ← getitem_list (caller_names d) 2;
    c001 ← getitem (counts d) "001";
    print ("  Unique to " +:+ n2 +:+ ": " +:+ pretty c001);;
    n0 ← getitem_list (caller_names d) 0;
    n1 ← getitem_list (caller_names d) 1;
    c110 ← getitem (counts d) "110";
    print ("  " +:+ n0 +:+ " & " +:+ n1 +:+ " only: " +:+ pretty c110);;
    n0 ← getitem_list (caller_names d) 0;
    n2 ← getitem_list (caller_names d) 2;
    c101 ← getitem (counts d) "101";
    print ("  " +:+ n0 +:+ " & " +:+ n2 +:+ " only: " +:+ pretty c101);;
    n1 ← getitem_list (caller_names d) 1;
    n2 ← getitem_list (caller_names d) 2;
    c011 ← getitem (counts d) "011";
    print ("  " +:+ n1 +:+ " & " +:+ n2 +:+ " only: " +:+ pretty c011);;
    c111 ← getitem (counts d) "111";
    print ("  Common to all three: " +:+ pretty c111)
  else mret ().

(** [create_venn_diagram]: the new figure, the hint, the diagram, the
    saved file and the summary.  Each step into the libraries can raise;
    the styling of the patches and texts that a drawing call returns is
    part of that step. *)
Definition create_venn_diagram (lib : library) (d : data) (args : Args)
    : py unit :=
  subplots lib (figsize args);;
  normalize_to ← normalize_hint (counts d) (num_callers d);
  draw_diagram lib d args normalize_to;;
  savefig lib (output args) (dpi args);;
  print ("Venn diagram saved to: " +:+ output args);;
  print_summary d.

Section Plotter.

(** What [pd.read_csv(path, sep='\t')] does for each path: the table, or
    the text of the exception it raises. *)
Variable read_csv : string → string + DataFrame.

Definition read_tsv_and_count_variants (tsv_file : string) : py data :=
  df ← match read_csv tsv_file with
       | inr df => mret df
       | inl e =>
           print_stderr ("Error reading TSV file: " +:+ e);;
           sys_exit 1
       end;
  count_table df.

(** The plotting libraries of the run. *)
Variable lib : library.

(** [main] after the command line has been parsed; the plotting add-on
    was imported when the module was loaded. *)
Definition main (args : Args) : py unit :=
  print "VCF Venn Diagram Plotter";;
  print "==================================================";;
  print ("Reading input file: " +:+ input args);;
  d ← read_tsv_and_count_variants (input args);
  print ("Creating " +:+ pretty (num_callers d) +:+ "-way Venn diagram...");;
  create_venn_diagram lib d args;;
  print (newline +:+ "Done!").

End Plotter.

(** ** Notions used to state the properties *)

(** Following the spec's words: the names of the fixed list that are
    columns of the table, in the order of the fixed list. *)
Definition recognized_columns (cols : list string) : list string :=
  filter (λ c, c ∈ cols) possible_callers.

(** The cell of a row under a named column. *)
Definition flag_of (cols : list string) (r : list cell) (c : string) : cell :=
  match column_index c cols with
  | Some i => field r i
  | None => CNaN
  end.

(** A cell that compares equal to 0 or to 1. *)
Definition is_binary (x : cell) : bool := cell_eq x 0 || cell_eq x 1.


Definition all_zero_row (cols callers : list string) (r : list cell) : bool :=
  forallb (λ c, cell_eq (flag_of cols r c) 0) callers.

(** Rows that satisfy a test. *)
Fixpoint count_rows (p : list cell → bool) (rs : list (list cell)) : nat :=
  match rs with
  | [] => 0
  | r :: rs' => (if p r then 1 else 0) + count_rows p rs'
  end.

(** The sum of all bucket counts of a dict. *)
Definition total_counted (m : gmap string nat) : nat :=
  map_fold (λ _ v acc, v + acc) 0 m.

(** [needle in haystack] on strings. *)
Fixpoint is_substring (needle haystack : string) : bool :=
  String.prefix needle haystack ||
  match haystack with
  | EmptyString => false
  | String _ rest => is_substring needle rest
  end.

(** Some line of a stream mentions the name. *)
Definition mentions (lines : list string) (name : string) : bool :=
  existsb (is_substring name) lines.


(** No call of the list is given a [normalize_to]. *)
Definition no_rescale (calls : list draw_call) : Prop :=
  Forall (λ c, normalize_to_of c = None) calls.

(** ** Closed forms of the counter and of the renderer *)

(** The row test behind a two-caller mask. *)
Definition test2 (cols : list string) (c1 c2 : string) (a b : Z)
    (r : list cell) : bool :=
  cell_eq (flag_of cols r c1) a && cell_eq (flag_of cols r c2) b.

(** The row test behind a three-caller mask. *)
Definition test3 (cols : list string) (c1 c2 c3 : string) (a b c : Z)
    (r : list cell) : bool :=
  cell_eq (flag_of cols r c1) a && cell_eq (flag_of cols r c2) b
  && cell_eq (flag_of cols r c3) c.

(** The dict of two callers, by row tests. *)
Definition counts2 (cols : list string) (rs : list (list cell)) (c1 c2 : string)
    : gmap string nat :=
  <["11" := count_rows (test2 cols c1 c2 1 1) rs]>
    (<["01" := count_rows (test2 cols c1 c2 0 1) rs]>
       (<["10" := count_rows (test2 cols c1 c2 1 0) rs]> ∅)).

(** The dict of three callers, by row tests. *)
Definition counts3 (cols : list string) (rs : list (list cell)) (c1 c2 c3 : string)
    : gmap string nat :=
  <["111" := count_rows (test3 cols c1 c2 c3 1 1 1) rs]>
    (<["011" := count_rows (test3 cols c1 c2 c3 0 1 1) rs]>
       (<["101" := count_rows (test3 cols c1 c2 c3 1 0 1) rs]>
          (<["110" := count_rows (test3 cols c1 c2 c3 1 1 0) rs]>
             (<["001" := count_rows (test3 cols c1 c2 c3 0 0 1) rs]>
                (<["010" := count_rows (test3 cols c1 c2 c3 0 1 0) rs]>
                   (<["100" := count_rows (test3 cols c1 c2 c3 1 0 0) rs]> ∅)))))).

(** The dict for a list of caller columns, by row tests. *)
Definition counts_for (cols : list string) (rs : list (list cell))
    (callers : list string) : gmap string nat :=
  match callers with
  | [c1; c2] => counts2 cols rs c1 c2
  | [c1; c2; c3] => counts3 cols rs c1 c2 c3
  | _ => ∅
  end.

(** The line printed once the callers are selected. *)
Definition found_line (callers : list string) : string :=
  "Found " +:+ pretty (length callers) +:+ " callers: "
    +:+ String.concat ", " callers.

(** 1 for a row that passes a test, 0 otherwise. *)
Definition indicator (b : bool) : nat := if b then 1 else 0.

(** The hint for the seven counts: 'region' when the largest exceeds ten
    times the smallest non-zero one (1 when all are zero). *)
Definition hint_of (all_counts : list nat) : option string :=
  let max_count := default 1 (py_max all_counts) in
  let min_nonzero :=
    if existsb (λ c, bool_decide (0 < c)) all_counts
    then default 1 (py_min (filter (λ c, 0 < c) all_counts)) else 1 in
  if bool_decide (10 * min_nonzero < max_count) then Some "region" else None.

(** The outline call for three callers, absent for the empty line style. *)
Definition circles3 (subsets : nat * nat * nat * nat * nat * nat * nat)
    (args : Args) : list draw_call :=
  if bool_decide (convert_line_style (outline args) ≠ "")
  then [venn3_circles subsets (convert_line_style (outline args)) (outline_width args)]
  else [].

(** The library calls of a three-caller run. *)
Definition figure3 (names : list string)
    (subsets : nat * nat * nat * nat * nat * nat * nat) (args : Args)
    : list draw_call :=
  venn3 subsets names
        (convert_r_color_to_matplotlib (color1 args),
         convert_r_color_to_matplotlib (color2 args),
         convert_r_color_to_matplotlib (color3 args)) (alpha args)
  :: circles3 subsets args.

(** The summary lines of a three-caller run. *)
Definition summary3 (names : list string)
    (c100 c010 c001 c110 c101 c011 c111 : nat) : list string :=
  match names with
  | [n0; n1; n2] =>
      [newline +:+ "Variant counts:";
       "  Unique to " +:+ n0 +:+ ": " +:+ pretty c100;
       "  Unique to " +:+ n1 +:+ ": " +:+ pretty c010;
       "  Unique to " +:+ n2 +:+ ": " +:+ pretty c001;
       "  " +:+ n0 +:+ " & " +:+ n1 +:+ " only: " +:+ pretty c110;
       "  " +:+ n0 +:+ " & " +:+ n2 +:+ " only: " +:+ pretty c101;
       "  " +:+ n1 +:+ " & " +:+ n2 +:+ " only: " +:+ pretty c011;
       "  Common to all three: " +:+ pretty c111]
  | _ => []
  end.

(** The lines [main] prints before it reads the table. *)
Definition banner (args : Args) : list string :=
  ["VCF Venn Diagram Plotter";
   "==================================================";
   "Reading input file: " +:+ input args].

(** The state in which [main] calls the counter. *)
Definition after_banner (args : Args) (w : world) : world :=
  mkWorld (stdout w ++ banner args) (stderr w) (figure w) (saved w).

(** The two lines on the error stream for fewer than two callers. *)
Definition insufficient_columns_lines (cols : list string) : list string :=
  ["Error: Could not find at least 2 caller columns in TSV file";
   "Available columns: " +:+ py_repr_list cols].

(** ** Concrete tables and options *)

(** Scenario A of the spec: two callers, five rows. *)
Definition scenario_A : DataFrame :=
  mkDataFrame ["Bcftools"; "FreeBayes"]
    [[CInt 1; CInt 0]; [CInt 0; CInt 1]; [CInt 1; CInt 1];
     [CInt 0; CInt 0]; [CInt 1; CInt 0]].

(** Scenario C of the spec: three callers, every row all-zero. *)
Definition scenario_C : DataFrame :=
  mkDataFrame ["Bcftools"; "FreeBayes"; "GATK"]
    [[CInt 0; CInt 0; CInt 0]; [CInt 0; CInt 0; CInt 0]].

(** Four recognized columns (one caller under both casings), one row. *)
Definition four_caller_table : DataFrame :=
  mkDataFrame ["Bcftools"; "FreeBayes"; "GATK"; "bcftools"]
    [[CInt 1; CInt 0; CInt 0; CInt 0]].

(** A table without any recognized column. *)
Definition no_caller_table : DataFrame :=
  mkDataFrame ["CHROM"; "POS"] [[CInt 1; CInt 100]].

(** Three callers, a missing value in the second row: pandas reads the
    Bcftools column as floats. *)
Definition table_with_missing : DataFrame :=
  mkDataFrame ["CHROM"; "GATK"; "Bcftools"; "FreeBayes"]
    [[CStr "chr1"; CInt 1; CFloat 1; CInt 0];
     [CStr "chr1"; CInt 1; CNaN; CInt 1];
     [CStr "chr2"; CInt 0; CFloat 0; CInt 1]].

(** The same table without its second row. *)
Definition table_without_missing : DataFrame :=
  mkDataFrame ["CHROM"; "GATK"; "Bcftools"; "FreeBayes"]
    [[CStr "chr1"; CInt 1; CFloat 1; CInt 0];
     [CStr "chr2"; CInt 0; CFloat 0; CInt 1]].

(** Twelve variants of the first caller alone, one of the second alone. *)
Definition unbalanced_table : DataFrame :=
  mkDataFrame ["Bcftools"; "FreeBayes"; "GATK"]
    (replicate 12 [CInt 1; CInt 0; CInt 0] ++ [[CInt 0; CInt 1; CInt 0]]).

(** What the counter returns on the unbalanced table. *)
Definition unbalanced_data : data :=
  mkData ["Bcftools"; "FreeBayes"; "GATK"]
    {[ "100" := 12; "010" := 1; "001" := 0; "110" := 0;
       "101" := 0; "011" := 0; "111" := 0 ]} 3.

(** The defaults of the command line, with the two required paths. *)
Definition default_args : Args :=
  mkArgs "summary.tsv" "venn.png" "#456f01" "#00688B" "#ffac12" "solid"
         (2 # 1) 300 (1 # 2) (10 # 1, 8 # 1).

(** A file system without any file. *)
Definition missing_file (path : string) : string + DataFrame :=
  inl ("[Errno 2] No such file or directory: " +:+ py_repr_str path).

(** Libraries on which every call returns. *)
Definition accepting : library := λ _, None.

(** Libraries on which every call returns but [plt.savefig]. *)
Definition unwritable : library := λ c,
  match c with
  | plt_savefig path _ _ => Some ("[Errno 13] Permission denied: " +:+ py_repr_str path)
  | _ => None
  end.

(** ** Further closed forms *)

(** Lines 132-140: the font style and weight for a style name. *)
Definition convert_font_style (style : string) : string * string :=
  let style_map : gmap string (string * string) :=
    list_to_map [("normal", ("normal", "normal")); ("bold", ("normal", "bold"));
                 ("italic", ("italic", "normal"));
                 ("bold-italic", ("italic", "bold"))] in
  default ("normal", "normal") (style_map !! style).

(** The style names that the command line accepts. *)
Definition style_choices : list string :=
  ["normal"; "bold"; "italic"; "bold-italic"].

(** The keys of the dict that the renderer reads for a number of callers,
    in the order in which it first reads them. *)
Definition required_keys (n : nat) : list string :=
  if bool_decide (n = 2) then ["10"; "01"; "11"]
  else if bool_decide (n = 3)
       then ["100"; "010"; "001"; "110"; "101"; "011"; "111"]
  else [].

(** The data on which the renderer reads no absent key and no absent
    name. *)
Definition renderable (d : data) : bool :=
  forallb (λ k, bool_decide (is_Some (counts d !! k))) (required_keys (num_callers d))
  && (bool_decide (num_callers d ≠ 2 ∧ num_callers d ≠ 3)
      || bool_decide (num_callers d ≤ length (caller_names d))%nat).

(** The outline call for two callers, absent for the empty line style. *)
Definition circles2 (subsets : nat * nat * nat) (args : Args) : list draw_call :=
  if bool_decide (convert_line_style (outline args) ≠ "")
  then [venn2_circles subsets (convert_line_style (outline args)) (outline_width args)]
  else [].

(** The library calls of a two-caller run. *)
Definition figure2 (names : list string) (subsets : nat * nat * nat)
    (args : Args) : list draw_call :=
  venn2 subsets names (alpha args) None :: circles2 subsets args.

(** The summary lines of a two-caller run. *)
Definition summary2 (names : list string) (c10 c01 c11 : nat) : list string :=
  match names with
  | [n0; n1] =>
      [newline +:+ "Variant counts:";
       "  Unique to " +:+ n0 +:+ ": " +:+ pretty c10;
       "  Unique to " +:+ n1 +:+ ": " +:+ pretty c01;
       "  Common to both: " +:+ pretty c11]
  | _ => []
  end.

(** The dict read as a total function, absent keys at 0. *)
Definition count_of (m : gmap string nat) (k : string) : nat := default 0 (m !! k).

(** The library calls of a run on returned data. *)
Definition figure_of (d : data) (args : Args) : list draw_call :=
  if bool_decide (num_callers d = 2) then
    figure2 (caller_names d)
      (count_of (counts d) "10", count_of (counts d) "01", count_of (counts d) "11")
      args
  else if bool_decide (num_callers d = 3) then
    figure3 (caller_names d)
      (count_of (counts d) "100", count_of (counts d) "010",
       count_of (counts d) "110", count_of (counts d) "001",
       count_of (counts d) "101", count_of (counts d) "011",
       count_of (counts d) "111") args
  else [].

(** The summary lines of a run on returned data. *)
Definition summary_of (d : data) : list string :=
  if bool_decide (num_callers d = 2) then
    summary2 (caller_names d)
      (count_of (counts d) "10") (count_of (counts d) "01") (count_of (counts d) "11")
  else if bool_decide (num_callers d = 3) then
    summary3 (caller_names d)
      (count_of (counts d) "100") (count_of (counts d) "010")
      (count_of (counts d) "001") (count_of (counts d) "110")
      (count_of (counts d) "101") (count_of (counts d) "011")
      (count_of (counts d) "111")
  else [newline +:+ "Variant counts:"].

(** What the counter returns on a table with at least two recognized
    columns. *)
Definition counted (df : DataFrame) : data :=
  mkData (recognized_columns (columns df))
         (counts_for (columns df) (rows df) (recognized_columns (columns df)))
         (length (recognized_columns (columns df))).

(** The state at the end of a run of [main] that returns. *)
Definition final_world (df : DataFrame) (args : Args) (w : world) : world :=
  mkWorld
    (stdout w ++ banner args
       ++ [found_line (caller_names (counted df));
           "Creating " +:+ pretty (num_callers (counted df))
             +:+ "-way Venn diagram...";
           "Venn diagram saved to: " +:+ output args]
       ++ summary_of (counted df) ++ [newline +:+ "Done!"])
    (stderr w)
    (figure_of (counted df) args)
    (saved w ++ [mkSaved (output args) (dpi args) (figure_of (counted df) args)]).

(** The drawing calls of a list, one after the other. *)
Fixpoint draw_calls (lib : library) (cs : list draw_call) : py unit :=
  match cs with
  | [] => mret ()
  | c :: cs' => draw lib c;; draw_calls lib cs'
  end.

(** The calls into the libraries of a rendering that draws [fig], in
    order. *)
Definition render_calls (args : Args) (fig : list draw_call) : list lib_call :=
  plt_subplots (figsize args)
  :: (venn_call <$> fig) ++ [plt_savefig (output args) (dpi args) fig].

(** The text of the first exception that the libraries raise on a list of
    calls, [None] when every call returns. *)
Definition first_failure (lib : library) (calls : list lib_call) : option string :=
  head (omap lib calls).

(** The first key of a list that a dict does not hold. *)
Definition first_missing (m : gmap string nat) (keys : list string)
    : option string :=
  head (filter (λ k, m !! k = None) keys).

(** The state in which the renderer starts to draw. *)
Definition fresh_figure (w : world) : world :=
  mkWorld (stdout w) (stderr w) [] (saved w).

(** A computation whose only effect is to print lines. *)
Definition prints_only {A : Type} (m : py A) : Prop :=
  ∀ w, ∃ o out,
    m w = (o, mkWorld (stdout w ++ out) (stderr w) (figure w) (saved w)).

(** ** Caller selection *)

Lemma foldl_select_step (cols l : list string) (acc : list string * list string) :
  foldl (select_step cols) acc l
  = (acc.1 ++ filter (λ c, c ∈ cols) l, acc.2 ++ filter (λ c, c ∈ cols) l).
Proof.
  revert acc. induction l as [|c l IH]; intros [a1 a2]; simpl.
  - by rewrite !app_nil_r.
  - rewrite IH. unfold select_step. rewrite filter_cons.
    case_bool_decide; destruct (decide (c ∈ cols)); try done; simpl.
    by rewrite <- !app_assoc.
Qed.

Lemma select_callers_recognized (cols : list string) :
  select_callers cols = (recognized_columns cols, recognized_columns cols).
Proof. unfold select_callers. by rewrite foldl_select_step. Qed.

Lemma recognized_in_header (cols : list string) (c : string) :
  c ∈ recognized_columns cols ↔ c ∈ possible_callers ∧ c ∈ cols.
Proof. unfold recognized_columns. rewrite list_elem_of_filter. tauto. Qed.

Lemma recognized_length_le (cols : list string) :
  (length (recognized_columns cols) ≤ 6)%nat.
Proof. apply (length_filter (λ c, c ∈ cols) possible_callers). Qed.

Lemma possible_callers_NoDup : NoDup possible_callers.
Proof. apply (bool_decide_unpack _). by vm_compute. Qed.

(** C3: the loop selects exactly the names of the fixed list that are
    columns of the header (membership is equality of strings, so the two
    casings are separate names), in the order of the fixed list and
    whatever the order of the header; both returned lists are that
    selection. *)
Theorem C3_selection_follows_fixed_list (cols : list string) :
  select_callers cols = (recognized_columns cols, recognized_columns cols)
  ∧ (∀ c, c ∈ (select_callers cols).2 ↔ c ∈ possible_callers ∧ c ∈ cols)
  ∧ sublist (select_callers cols).2 possible_callers
  ∧ NoDup (select_callers cols).2
  ∧ (∀ cols', cols ≡ₚ cols' → select_callers cols' = select_callers cols).
Proof.
  rewrite select_callers_recognized. simpl. split_and!.
  - done.
  - apply recognized_in_header.
  - apply sublist_filter.
  - apply NoDup_filter, possible_callers_NoDup.
  - intros cols' Hp. rewrite select_callers_recognized. unfold recognized_columns.
    f_equal; apply list_filter_iff; intros c; by rewrite Hp.
Qed.

(** The two casings of one caller are selected independently, and the
    selection is in neither header order nor case-blind alphabetical order. *)
Example select_callers_casing :
  select_callers ["gatk"; "POS"; "bcftools"; "FreeBayes"]
  = (["FreeBayes"; "bcftools"; "gatk"], ["FreeBayes"; "bcftools"; "gatk"])
  ∧ select_callers ["GATK"; "gatk"] = (["GATK"; "gatk"], ["GATK"; "gatk"])
  ∧ select_callers ["Gatk"; "BCFTOOLS"] = ([], []).
Proof. by vm_compute. Qed.

(** ** The vectorised masks, row by row *)

Lemma len_loc_fmap (p : list cell → bool) (rs : list (list cell)) :
  length (df_loc rs (p <$> rs)) = count_rows p rs.
Proof.
  induction rs as [|r rs IH]; [done|].
  change (p <$> r :: rs) with (p r :: (p <$> rs)). simpl.
  rewrite <- IH. by destruct (p r).
Qed.

Lemma mask_and_fmap (p q : list cell → bool) (rs : list (list cell)) :
  mask_and (p <$> rs) (q <$> rs) = (λ r, p r && q r) <$> rs.
Proof.
  unfold mask_and. induction rs as [|r rs IH]; [done|].
  change (zip_with andb (p <$> r :: rs) (q <$> r :: rs))
    with ((p r && q r) :: zip_with andb (p <$> rs) (q <$> rs)).
  by rewrite IH.
Qed.

Lemma series_eq_fmap (f : list cell → cell) (rs : list (list cell)) (k : Z) :
  series_eq (f <$> rs) k = (λ r, cell_eq (f r) k) <$> rs.
Proof. unfold series_eq. by rewrite <- list_fmap_compose. Qed.

Lemma count_rows_app (p : list cell → bool) (rs1 rs2 : list (list cell)) :
  count_rows p (rs1 ++ rs2) = count_rows p rs1 + count_rows p rs2.
Proof. induction rs1 as [|r rs1 IH]; simpl; [done|]. rewrite IH. lia. Qed.

Lemma count_rows_remove (p : list cell → bool) (rs1 rs2 : list (list cell)) (r : list cell) :
  count_rows p (rs1 ++ r :: rs2)
  = (if p r then 1 else 0) + count_rows p (rs1 ++ rs2).
Proof. rewrite !count_rows_app. simpl. lia. Qed.


Lemma count_rows_cons p r rs :
  count_rows p (r :: rs) = indicator (p r) + count_rows p rs.
Proof. done. Qed.

Lemma column_index_elem (c : string) (cols : list string) :
  c ∈ cols → is_Some (column_index c cols).
Proof.
  induction cols as [|c' cols IH]; intros Hc; [by apply elem_of_nil in Hc|].
  simpl. case_bool_decide; [by eexists|].
  apply elem_of_cons in Hc as [->|Hc]; [done|].
  destruct (IH Hc) as [i ->]. by eexists.
Qed.

Lemma count2_rows cols rs c1 c2 a b w :
  c1 ∈ cols → c2 ∈ cols →
  count2 (mkDataFrame cols rs) c1 c2 a b w
  = (Return (count_rows (test2 cols c1 c2 a b) rs), w).
Proof.
  intros [i1 H1]%column_index_elem [i2 H2]%column_index_elem.
  unfold count2, getcol, df_col, len_loc, test2, flag_of; simpl.
  rewrite H1, H2; simpl. unfold mbind, py_bind, mret, py_ret; simpl.
  by rewrite !series_eq_fmap, mask_and_fmap, len_loc_fmap.
Qed.

Lemma count3_rows cols rs c1 c2 c3 a b c w :
  c1 ∈ cols → c2 ∈ cols → c3 ∈ cols →
  count3 (mkDataFrame cols rs) c1 c2 c3 a b c w
  = (Return (count_rows (test3 cols c1 c2 c3 a b c) rs), w).
Proof.
  intros [i1 H1]%column_index_elem [i2 H2]%column_index_elem
         [i3 H3]%column_index_elem.
  unfold count3, getcol, df_col, len_loc, test3, flag_of; simpl.
  rewrite H1, H2, H3; simpl. unfold mbind, py_bind, mret, py_ret; simpl.
  by rewrite !series_eq_fmap, !mask_and_fmap, len_loc_fmap.
Qed.

Lemma count_combinations_2 cols rs c1 c2 w :
  c1 ∈ cols → c2 ∈ cols →
  count_combinations (mkDataFrame cols rs) [c1; c2] w
  = (Return (counts2 cols rs c1 c2), w).
Proof.
  intros H1 H2. unfold count_combinations, counts2.
  unfold mbind at 1, py_bind at 1. rewrite count2_rows by done.
  unfold mbind at 1, py_bind at 1. rewrite count2_rows by done.
  unfold mbind at 1, py_bind at 1. rewrite count2_rows by done.
  done.
Qed.

Lemma count_combinations_3 cols rs c1 c2 c3 w :
  c1 ∈ cols → c2 ∈ cols → c3 ∈ cols →
  count_combinations (mkDataFrame cols rs) [c1; c2; c3] w
  = (Return (counts3 cols rs c1 c2 c3), w).
Proof.
  intros H1 H2 H3. unfold count_combinations, counts3.
  do 7 (unfold mbind at 1, py_bind at 1; rewrite count3_rows by done).
  done.
Qed.

Lemma count_combinations_other df cc w :
  length cc ≠ 2 → length cc ≠ 3 →
  count_combinations df cc w = (Return ∅, w).
Proof.
  intros H2 H3. unfold count_combinations.
  destruct cc as [|c1 [|c2 [|c3 [|c4 cc]]]]; simpl in *; done.
Qed.

(** ** Stepping through a run *)

Lemma bind_return {A B : Type} (m : py A) (f : A → py B) (w w' : world) (a : A) :
  m w = (Return a, w') → (m ≫= f) w = f a w'.
Proof. intros H. unfold mbind, py_bind. by rewrite H. Qed.

Lemma bind_exit {A B : Type} (m : py A) (f : A → py B) (w w' : world) (code : Z) :
  m w = (SysExit code, w') → (m ≫= f) w = (SysExit code, w').
Proof. intros H. unfold mbind, py_bind. by rewrite H. Qed.

Lemma bind_raise {A B : Type} (m : py A) (f : A → py B) (w w' : world)
    (e : py_exception) :
  m w = (Uncaught e, w') → (m ≫= f) w = (Uncaught e, w').
Proof. intros H. unfold mbind, py_bind. by rewrite H. Qed.

Lemma bind_assoc {A B C : Type} (m : py A) (f : A → py B) (g : B → py C) w :
  ((m ≫= f) ≫= g) w = (m ≫= λ a, f a ≫= g) w.
Proof. unfold mbind, py_bind. by destruct (m w) as [[a|code|e] w']. Qed.

Lemma bind_same {A B : Type} (m m' : py A) (f : A → py B) w :
  m w = m' w → (m ≫= f) w = (m' ≫= f) w.
Proof. intros H. unfold mbind, py_bind. by rewrite H. Qed.

Lemma getitem_some (d : gmap string nat) k v w :
  d !! k = Some v → getitem d k w = (Return v, w).
Proof. intros H. unfold getitem. by rewrite H. Qed.

Lemma getitem_none (d : gmap string nat) k w :
  d !! k = None → getitem d k w = (Uncaught (KeyError k), w).
Proof. intros H. unfold getitem. by rewrite H. Qed.

Lemma getitem_list_some (l : list string) i v w :
  l !! i = Some v → getitem_list l i w = (Return v, w).
Proof. intros H. unfold getitem_list. by rewrite H. Qed.

Lemma getitem_list_none (l : list string) i w :
  l !! i = None → getitem_list l i w = (Uncaught (IndexError i), w).
Proof. intros H. unfold getitem_list. by rewrite H. Qed.

Lemma print_return line w :
  print line w
  = (Return (), mkWorld (stdout w ++ [line]) (stderr w) (figure w) (saved w)).
Proof. done. Qed.

Lemma bind_getitem_some {B : Type} (d : gmap string nat) k v (f : nat → py B) w :
  d !! k = Some v → (getitem d k ≫= f) w = f v w.
Proof. intros H. by apply bind_return, getitem_some. Qed.

Lemma bind_getitem_none {B : Type} (d : gmap string nat) k (f : nat → py B) w :
  d !! k = None → (getitem d k ≫= f) w = (Uncaught (KeyError k), w).
Proof. intros H. by apply bind_raise, getitem_none. Qed.

Lemma bind_getitem_list_some {B : Type} (l : list string) i v
    (f : string → py B) w :
  l !! i = Some v → (getitem_list l i ≫= f) w = f v w.
Proof. intros H. by apply bind_return, getitem_list_some. Qed.

Lemma bind_getitem_list_none {B : Type} (l : list string) i
    (f : string → py B) w :
  l !! i = None → (getitem_list l i ≫= f) w = (Uncaught (IndexError i), w).
Proof. intros H. by apply bind_raise, getitem_list_none. Qed.

Lemma bind_print {B : Type} (line : string) (f : unit → py B) w :
  (print line ≫= f) w
  = f () (mkWorld (stdout w ++ [line]) (stderr w) (figure w) (saved w)).
Proof. done. Qed.

(** Run the next lookup or print of the goal. *)
Ltac step_lookup :=
  lazymatch goal with
  | |- context [(getitem ?d ?k ≫= ?f) ?w] =>
      first [ rewrite (bind_getitem_some d k _ f w ltac:(eassumption))
            | rewrite (bind_getitem_none d k f w ltac:(eassumption)) ]
  | |- context [(getitem_list ?l ?i ≫= ?f) ?w] =>
      first [ rewrite (bind_getitem_list_some l i _ f w ltac:(reflexivity))
            | rewrite (bind_getitem_list_none l i f w ltac:(reflexivity)) ]
  | |- context [(print ?line ≫= ?f) ?w] => rewrite (bind_print line f w)
  end.

(** ** The counter in closed form *)

Lemma count_combinations_for cols rs callers w :
  (∀ c, c ∈ callers → c ∈ cols) →
  count_combinations (mkDataFrame cols rs) callers w
  = (Return (counts_for cols rs callers), w).
Proof.
  intros Hin.
  destruct callers as [|c1 [|c2 [|c3 [|c4 cc]]]]; try done.
  - apply count_combinations_2; apply Hin; set_solver.
  - apply count_combinations_3; apply Hin; set_solver.
Qed.

Lemma count_table_enough cols rs w :
  (2 ≤ length (recognized_columns cols))%nat →
  count_table (mkDataFrame cols rs) w
  = (Return (mkData (recognized_columns cols)
                    (counts_for cols rs (recognized_columns cols))
                    (length (recognized_columns cols))),
     (print (found_line (recognized_columns cols)) w).2).
Proof.
  intros Hlen. unfold count_table. simpl.
  rewrite select_callers_recognized.
  rewrite bool_decide_eq_false_2 by lia.
  unfold mbind at 1, py_bind at 1. simpl.
  unfold mbind at 1, py_bind at 1.
  rewrite count_combinations_for; [done|].
  intros c Hc. by apply recognized_in_header in Hc as [_ ?].
Qed.

Lemma count_table_few cols rs w :
  length (recognized_columns cols) < 2 →
  count_table (mkDataFrame cols rs) w
  = (SysExit 1,
     mkWorld (stdout w)
       (stderr w ++ ["Error: Could not find at least 2 caller columns in TSV file";
                     "Available columns: " +:+ py_repr_list cols])
       (figure w) (saved w)).
Proof.
  intros Hlen. unfold count_table. simpl.
  rewrite select_callers_recognized.
  rewrite bool_decide_eq_true_2 by lia.
  unfold mbind, py_bind, print_stderr, sys_exit. simpl.
  by rewrite <- app_assoc.
Qed.

Lemma read_tsv_table read_csv path df w :
  read_csv path = inr df →
  read_tsv_and_count_variants read_csv path w = count_table df w.
Proof. intros H. unfold read_tsv_and_count_variants. by rewrite H. Qed.

Lemma read_tsv_failure read_csv path e w :
  read_csv path = inl e →
  read_tsv_and_count_variants read_csv path w
  = (SysExit 1,
     mkWorld (stdout w) (stderr w ++ ["Error reading TSV file: " +:+ e])
             (figure w) (saved w)).
Proof. intros H. unfold read_tsv_and_count_variants. by rewrite H. Qed.

Lemma count_table_effect (df : DataFrame) :
  ∃ o out err, ∀ w,
    count_table df w
    = (o, mkWorld (stdout w ++ out) (stderr w ++ err) (figure w) (saved w)).
Proof.
  destruct df as [cols rs].
  destruct (decide (length (recognized_columns cols) < 2)) as [Hfew|Henough].
  - eexists _, [], _. intros w. rewrite count_table_few by done.
    by rewrite (app_nil_r (stdout w)).
  - eexists _, _, []. intros w. rewrite count_table_enough by lia.
    rewrite print_return. simpl. by rewrite (app_nil_r (stderr w)).
Qed.

Lemma read_tsv_effect (read_csv : string → string + DataFrame) (path : string) :
  ∃ o out err, ∀ w,
    read_tsv_and_count_variants read_csv path w
    = (o, mkWorld (stdout w ++ out) (stderr w ++ err) (figure w) (saved w)).
Proof.
  destruct (read_csv path) as [e|df] eqn:Hread.
  - eexists _, [], _. intros w. rewrite (read_tsv_failure _ _ e) by done.
    by rewrite (app_nil_r (stdout w)).
  - destruct (count_table_effect df) as (o & out & err & H).
    exists o, out, err. intros w. by rewrite (read_tsv_table _ _ df).
Qed.

(** ** Sums over the dict *)

Lemma total_counted_insert (m : gmap string nat) (k : string) (v : nat) :
  m !! k = None → total_counted (<[k := v]> m) = v + total_counted m.
Proof.
  intros Hk. unfold total_counted.
  rewrite map_fold_insert_L; [done| |done]. intros; lia.
Qed.

Lemma total_counted_empty : total_counted ∅ = 0.
Proof. apply map_fold_empty. Qed.

Lemma total_counts2 cols rs c1 c2 :
  total_counted (counts2 cols rs c1 c2)
  = count_rows (test2 cols c1 c2 1 1) rs
    + (count_rows (test2 cols c1 c2 0 1) rs
       + count_rows (test2 cols c1 c2 1 0) rs).
Proof.
  unfold counts2.
  rewrite !total_counted_insert, total_counted_empty by done. lia.
Qed.

Lemma total_counts3 cols rs c1 c2 c3 :
  total_counted (counts3 cols rs c1 c2 c3)
  = count_rows (test3 cols c1 c2 c3 1 1 1) rs
    + (count_rows (test3 cols c1 c2 c3 0 1 1) rs
    + (count_rows (test3 cols c1 c2 c3 1 0 1) rs
    + (count_rows (test3 cols c1 c2 c3 1 1 0) rs
    + (count_rows (test3 cols c1 c2 c3 0 0 1) rs
    + (count_rows (test3 cols c1 c2 c3 0 1 0) rs
    + count_rows (test3 cols c1 c2 c3 1 0 0) rs))))).
Proof.
  unfold counts3.
  rewrite !total_counted_insert, total_counted_empty by done. lia.
Qed.

(** ** Every row falls in at most one bucket *)

Lemma cell_eq_excl (x : cell) : cell_eq x 0 = true → cell_eq x 1 = false.
Proof.
  destruct x as [z|[]|q| |s]; simpl; try done.
  - intros ->%bool_decide_eq_true. by apply bool_decide_eq_false.
  - intros H0%Qeq_bool_iff. destruct (Qeq_bool q (inject_Z 1)) eqn:H1; [|done].
    apply Qeq_bool_iff in H1. rewrite H0 in H1. discriminate H1.
Qed.

(** Case analysis on the two comparisons of a flag; the case where both
    hold is closed. *)
Ltac flag_cases x :=
  let H := fresh "Hexcl" in
  pose proof (cell_eq_excl x) as H;
  destruct (cell_eq x 0), (cell_eq x 1);
  try discriminate (H eq_refl); clear H.









(** A row with a flag that is neither 0 nor 1 passes no bucket test. *)
Lemma counts_for_not_binary cols callers c rs1 r rs2 :
  c ∈ callers → is_binary (flag_of cols r c) = false →
  counts_for cols (rs1 ++ r :: rs2) callers = counts_for cols (rs1 ++ rs2) callers.
Proof.
  intros Hc [H0 H1]%orb_false_elim.
  destruct callers as [|c1 [|c2 [|c3 [|c4 cc]]]]; try done; simpl.
  - unfold counts2. rewrite !count_rows_remove. unfold test2.
    apply elem_of_cons in Hc as [->|Hc]; [|apply list_elem_of_singleton in Hc as ->];
      rewrite ?H0, ?H1, ?andb_false_r; done.
  - unfold counts3. rewrite !count_rows_remove. unfold test3.
    apply elem_of_cons in Hc as [->|Hc];
      [|apply elem_of_cons in Hc as [->|Hc];
        [|apply list_elem_of_singleton in Hc as ->]];
      rewrite ?H0, ?H1, ?andb_false_r; done.
Qed.



(** ** The steps into the libraries *)

Lemma subplots_accepted lib fs w :
  lib (plt_subplots fs) = None → subplots lib fs w = (Return (), fresh_figure w).
Proof. intros H. unfold subplots. by rewrite H. Qed.

Lemma subplots_rejected lib fs e w :
  lib (plt_subplots fs) = Some e →
  subplots lib fs w = (Uncaught (LibraryError e), w).
Proof. intros H. unfold subplots. by rewrite H. Qed.

Lemma draw_accepted lib c w :
  lib (venn_call c) = None →
  draw lib c w
  = (Return (), mkWorld (stdout w) (stderr w) (figure w ++ [c]) (saved w)).
Proof. intros H. unfold draw. by rewrite H. Qed.

Lemma draw_rejected lib c e w :
  lib (venn_call c) = Some e → draw lib c w = (Uncaught (LibraryError e), w).
Proof. intros H. unfold draw. by rewrite H. Qed.

Lemma savefig_accepted lib path dpi w :
  lib (plt_savefig path dpi (figure w)) = None →
  savefig lib path dpi w
  = (Return (), mkWorld (stdout w) (stderr w) (figure w)
                        (saved w ++ [mkSaved path dpi (figure w)])).
Proof. intros H. unfold savefig. by rewrite H. Qed.

Lemma savefig_rejected lib path dpi e w :
  lib (plt_savefig path dpi (figure w)) = Some e →
  savefig lib path dpi w = (Uncaught (LibraryError e), w).
Proof. intros H. unfold savefig. by rewrite H. Qed.

Lemma first_failure_cons lib c cs :
  first_failure lib (c :: cs)
  = match lib c with Some e => Some e | None => first_failure lib cs end.
Proof. unfold first_failure. simpl. by destruct (lib c). Qed.

Lemma first_failure_nil lib : first_failure lib [] = None.
Proof. done. Qed.

(** The drawing calls and the saving, in one: either every call returns,
    the figure is drawn and the file saved, or the first call that raises
    ends the run with a part of the figure drawn and no file saved. *)
Lemma draw_then_save {B : Type} lib fig path dpi (K : py B) w :
  match first_failure lib
          ((venn_call <$> fig) ++ [plt_savefig path dpi (figure w ++ fig)]) with
  | None =>
      (draw_calls lib fig;; savefig lib path dpi;; K) w
      = K (mkWorld (stdout w) (stderr w) (figure w ++ fig)
                   (saved w ++ [mkSaved path dpi (figure w ++ fig)]))
  | Some e =>
      ∃ drawn, drawn `prefix_of` fig
        ∧ (draw_calls lib fig;; savefig lib path dpi;; K) w
          = (Uncaught (LibraryError e),
             mkWorld (stdout w) (stderr w) (figure w ++ drawn) (saved w))
  end.
Proof.
  revert w. induction fig as [|c fig IH]; intros w.
  - cbn [fmap list_fmap app draw_calls]. rewrite first_failure_cons, first_failure_nil.
    rewrite app_nil_r. erewrite bind_return by done.
    destruct (lib (plt_savefig path dpi (figure w))) as [e|] eqn:Hsave.
    + exists []. split; [done|]. rewrite app_nil_r.
      erewrite bind_raise by (by apply savefig_rejected). by destruct w.
    + by erewrite bind_return by (by apply savefig_accepted).
  - cbn [fmap list_fmap app draw_calls]. rewrite first_failure_cons, bind_assoc.
    destruct (lib (venn_call c)) as [e|] eqn:Hc.
    + exists []. split; [apply prefix_nil|]. rewrite app_nil_r.
      erewrite bind_raise by (by apply draw_rejected). by destruct w.
    + erewrite bind_return by (by apply draw_accepted).
      specialize (IH (mkWorld (stdout w) (stderr w) (figure w ++ [c]) (saved w))).
      cbn [stdout stderr figure saved] in IH. rewrite <- !app_assoc in IH.
      cbn [app] in IH.
      destruct (first_failure lib _) as [e|]; [|done].
      destruct IH as (drawn & Hpre & Hrun). exists (c :: drawn).
      split; [by apply prefix_cons|]. by rewrite Hrun, <- app_assoc.
Qed.

Lemma no_rescale_prefix (drawn fig : list draw_call) :
  drawn `prefix_of` fig → no_rescale fig → no_rescale drawn.
Proof. intros [rest ->] [H _]%Forall_app. done. Qed.

(** ** The renderer in closed form *)

Lemma py_min_filter_positive (l : list nat) :
  existsb (λ c, bool_decide (0 < c)) l = true →
  is_Some (py_min (filter (λ c, 0 < c) l)).
Proof.
  intros (x & Hx%list_elem_of_In & Hpos%bool_decide_eq_true)%existsb_exists.
  assert (x ∈ filter (λ c, 0 < c) l) as Hin by by apply list_elem_of_filter.
  destruct (filter (λ c, 0 < c) l); [by apply elem_of_nil in Hin|by eexists].
Qed.

Lemma normalize_hint_3 counts c100 c010 c001 c110 c101 c011 c111 w :
  counts !! "100" = Some c100 → counts !! "010" = Some c010 →
  counts !! "001" = Some c001 → counts !! "110" = Some c110 →
  counts !! "101" = Some c101 → counts !! "011" = Some c011 →
  counts !! "111" = Some c111 →
  normalize_hint counts 3 w
  = (Return (hint_of [c100; c010; c001; c110; c101; c011; c111]), w).
Proof.
  intros H1 H2 H3 H4 H5 H6 H7. unfold normalize_hint.
  rewrite bool_decide_eq_true_2 by done.
  do 7 (erewrite bind_return by (by apply getitem_some)).
  set (l := [c100; c010; c001; c110; c101; c011; c111]).
  rewrite bool_decide_eq_true_2 by done.
  unfold hint_of. fold l.
  change (py_max l) with (Some (foldl Nat.max c100 (tail l))).
  erewrite bind_return by done. simpl default.
  destruct (existsb (λ c, bool_decide (0 < c)) l) eqn:Hany.
  - destruct (py_min_filter_positive l Hany) as [m Hm]. rewrite Hm.
    erewrite bind_return by done. simpl default.
    cbn [tail foldl l]. by case_bool_decide.
  - erewrite bind_return by done. cbn [tail foldl l]. by case_bool_decide.
Qed.

Lemma normalize_hint_not_3 counts n w :
  n ≠ 3 → normalize_hint counts n w = (Return None, w).
Proof. intros Hn. unfold normalize_hint. by rewrite bool_decide_eq_false_2. Qed.

Lemma first_missing_cons_some (m : gmap string nat) k keys v :
  m !! k = Some v → first_missing m (k :: keys) = first_missing m keys.
Proof.
  intros H. unfold first_missing. rewrite filter_cons.
  destruct (decide (m !! k = None)); [congruence|done].
Qed.

Lemma first_missing_cons_none (m : gmap string nat) k keys :
  m !! k = None → first_missing m (k :: keys) = Some k.
Proof.
  intros H. unfold first_missing. rewrite filter_cons.
  destruct (decide (m !! k = None)); [done|congruence].
Qed.

Lemma first_missing_none (m : gmap string nat) (keys : list string) :
  first_missing m keys = None ↔ ∀ k, k ∈ keys → is_Some (m !! k).
Proof.
  unfold first_missing. split.
  - intros Hnil%head_None k Hk.
    destruct (m !! k) eqn:Hmk; [by eexists|].
    assert (k ∈ filter (λ k, m !! k = None) keys) as Hin
      by by apply list_elem_of_filter.
    rewrite Hnil in Hin. by apply elem_of_nil in Hin.
  - intros Hall. apply head_None.
    destruct (filter _ keys) as [|k l] eqn:Hf; [done|].
    assert (k ∈ filter (λ k, m !! k = None) keys) as Hin by (rewrite Hf; by left).
    apply list_elem_of_filter in Hin as [Hnone Hin].
    destruct (Hall k Hin) as [v Hv]. congruence.
Qed.

Lemma count_of_some (m : gmap string nat) k v : m !! k = Some v → count_of m k = v.
Proof. intros H. unfold count_of. by rewrite H. Qed.

Lemma normalize_hint_missing counts k w :
  first_missing counts (required_keys 3) = Some k →
  normalize_hint counts 3 w = (Uncaught (KeyError k), w).
Proof.
  unfold required_keys, normalize_hint.
  rewrite bool_decide_eq_false_2, !bool_decide_eq_true_2 by done.
  repeat match goal with
  | |- first_missing counts (?k' :: _) = _ → _ =>
      destruct (counts !! k') eqn:?;
      [erewrite first_missing_cons_some by done; step_lookup
      |erewrite first_missing_cons_none by done; intros [= <-]; by step_lookup]
  end.
  done.
Qed.

(** With its keys present the hint is computed, and it is absent unless
    there are three callers. *)
Lemma normalize_hint_returns counts n w :
  first_missing counts (required_keys n) = None →
  ∃ nt, normalize_hint counts n w = (Return nt, w) ∧ (n ≠ 3 → nt = None).
Proof.
  intros Hkeys. destruct (decide (n = 3)) as [->|Hn].
  - rewrite first_missing_none in Hkeys.
    destruct (Hkeys "100") as [c100 E100]; [by vm_compute; set_solver|].
    destruct (Hkeys "010") as [c010 E010]; [by vm_compute; set_solver|].
    destruct (Hkeys "001") as [c001 E001]; [by vm_compute; set_solver|].
    destruct (Hkeys "110") as [c110 E110]; [by vm_compute; set_solver|].
    destruct (Hkeys "101") as [c101 E101]; [by vm_compute; set_solver|].
    destruct (Hkeys "011") as [c011 E011]; [by vm_compute; set_solver|].
    destruct (Hkeys "111") as [c111 E111]; [by vm_compute; set_solver|].
    eexists. split; [by eapply normalize_hint_3|done].
  - exists None. split; [by apply normalize_hint_not_3|done].
Qed.

Lemma draw_diagram_missing lib d args nt k w :
  num_callers d = 2 →
  first_missing (counts d) (required_keys 2) = Some k →
  draw_diagram lib d args nt w = (Uncaught (KeyError k), w).
Proof.
  intros Hn. unfold required_keys, draw_diagram.
  rewrite Hn, !bool_decide_eq_true_2 by done.
  repeat match goal with
  | |- first_missing (counts d) (?k' :: _) = _ → _ =>
      destruct (counts d !! k') eqn:?;
      [erewrite first_missing_cons_some by done; step_lookup
      |erewrite first_missing_cons_none by done; intros [= <-]; by step_lookup]
  end.
  done.
Qed.

Lemma draw_one_or_two lib c (cs : list draw_call) (next : py unit) w :
  (∀ w', next w' = draw_calls lib cs w') →
  (draw lib c;; next) w = draw_calls lib (c :: cs) w.
Proof.
  intros Hnext. cbn [draw_calls]. unfold mbind, py_bind.
  by destruct (draw lib c w) as [[[]|code|e] w'].
Qed.

Lemma draw_single lib c w : draw lib c w = draw_calls lib [c] w.
Proof.
  cbn [draw_calls]. unfold mbind, py_bind.
  by destruct (draw lib c w) as [[[]|code|e] w'].
Qed.

(** With its keys present [draw_diagram] makes the drawing calls of
    [figure_of], in order. *)
Lemma draw_diagram_draws lib d args nt w :
  first_missing (counts d) (required_keys (num_callers d)) = None →
  (num_callers d ≠ 3 → nt = None) →
  draw_diagram lib d args nt w = draw_calls lib (figure_of d args) w.
Proof.
  intros Hkeys Hnt. rewrite first_missing_none in Hkeys.
  unfold draw_diagram, figure_of, required_keys in *.
  case_bool_decide as H2; [|case_bool_decide as H3].
  - destruct (Hkeys "10") as [c10 E10]; [set_solver|].
    destruct (Hkeys "01") as [c01 E01]; [set_solver|].
    destruct (Hkeys "11") as [c11 E11]; [set_solver|].
    rewrite Hnt by lia. do 3 step_lookup.
    rewrite (count_of_some _ _ _ E10), (count_of_some _ _ _ E01),
      (count_of_some _ _ _ E11).
    unfold figure2, circles2. apply draw_one_or_two. intros w'.
    case_bool_decide; [apply draw_single|done].
  - destruct (Hkeys "100") as [c100 E100]; [set_solver|].
    destruct (Hkeys "010") as [c010 E010]; [set_solver|].
    destruct (Hkeys "001") as [c001 E001]; [set_solver|].
    destruct (Hkeys "110") as [c110 E110]; [set_solver|].
    destruct (Hkeys "101") as [c101 E101]; [set_solver|].
    destruct (Hkeys "011") as [c011 E011]; [set_solver|].
    destruct (Hkeys "111") as [c111 E111]; [set_solver|].
    do 7 step_lookup.
    rewrite (count_of_some _ _ _ E100), (count_of_some _ _ _ E010),
      (count_of_some _ _ _ E001), (count_of_some _ _ _ E110),
      (count_of_some _ _ _ E101), (count_of_some _ _ _ E011),
      (count_of_some _ _ _ E111).
    unfold figure3, circles3. apply draw_one_or_two. intros w'.
    case_bool_decide; [apply draw_single|done].
  - done.
Qed.

(** The renderer, case by case: [plt.subplots] raises; or a count is
    absent; or the drawing calls, the saving and the summary follow. *)
Lemma create_venn_diagram_cases lib d args w :
  create_venn_diagram lib d args w
  = match lib (plt_subplots (figsize args)) with
    | Some e => (Uncaught (LibraryError e), w)
    | None =>
        match first_missing (counts d) (required_keys (num_callers d)) with
        | Some k => (Uncaught (KeyError k), fresh_figure w)
        | None =>
            (draw_calls lib (figure_of d args);;
             savefig lib (output args) (dpi args);;
             print ("Venn diagram saved to: " +:+ output args);;
             print_summary d) (fresh_figure w)
        end
    end.
Proof.
  unfold create_venn_diagram.
  destruct (lib (plt_subplots (figsize args))) as [e|] eqn:Hsub.
  { by erewrite bind_raise by (by apply subplots_rejected). }
  erewrite bind_return by (by apply subplots_accepted).
  destruct (first_missing (counts d) (required_keys (num_callers d)))
    as [k|] eqn:Hkeys.
  - destruct (decide (num_callers d = 3)) as [H3|H3].
    + rewrite H3 in *. erewrite bind_raise; [done|]. by apply normalize_hint_missing.
    + erewrite bind_return by (by apply normalize_hint_not_3).
      destruct (decide (num_callers d = 2)) as [H2|H2].
      * rewrite H2 in Hkeys. erewrite bind_raise; [done|].
        by apply draw_diagram_missing.
      * unfold required_keys in Hkeys.
        by rewrite !bool_decide_eq_false_2 in Hkeys by done.
  - destruct (normalize_hint_returns (counts d) (num_callers d) (fresh_figure w) Hkeys)
      as (nt & Hnt & Hnone).
    erewrite bind_return by apply Hnt.
    apply bind_same. by apply draw_diagram_draws.
Qed.

(** With every count present a rendering goes as the libraries let it:
    when each of its calls returns, the figure is drawn, the file is
    saved and the summary follows; otherwise the first call that raises
    ends it, before any file is saved. *)
Lemma create_venn_diagram_run lib d args w :
  first_missing (counts d) (required_keys (num_callers d)) = None →
  match first_failure lib (render_calls args (figure_of d args)) with
  | None =>
      create_venn_diagram lib d args w
      = print_summary d
          (mkWorld (stdout w ++ ["Venn diagram saved to: " +:+ output args])
                   (stderr w) (figure_of d args)
                   (saved w ++ [mkSaved (output args) (dpi args) (figure_of d args)]))
  | Some e =>
      ∃ fig,
        ((lib (plt_subplots (figsize args)) = Some e ∧ fig = figure w)
         ∨ (lib (plt_subplots (figsize args)) = None
            ∧ fig `prefix_of` figure_of d args))
        ∧ create_venn_diagram lib d args w
          = (Uncaught (LibraryError e),
             mkWorld (stdout w) (stderr w) fig (saved w))
  end.
Proof.
  intros Hkeys. rewrite create_venn_diagram_cases, Hkeys.
  unfold render_calls. rewrite first_failure_cons.
  destruct (lib (plt_subplots (figsize args))) as [e|] eqn:Hsub.
  { exists (figure w). split; [by left|by destruct w]. }
  pose proof (draw_then_save lib (figure_of d args) (output args) (dpi args)
                (print ("Venn diagram saved to: " +:+ output args);;
                 print_summary d) (fresh_figure w)) as Hrun.
  cbn [figure stdout stderr saved fresh_figure app] in Hrun.
  destruct (first_failure lib _) as [e|].
  - destruct Hrun as (drawn & Hpre & ->). exists drawn. split; [by right|done].
  - by rewrite Hrun, bind_print.
Qed.

Lemma print_summary_2 d n0 n1 c10 c01 c11 w :
  num_callers d = 2 → caller_names d = [n0; n1] →
  counts d !! "10" = Some c10 → counts d !! "01" = Some c01 →
  counts d !! "11" = Some c11 →
  print_summary d w
  = (Return (),
     mkWorld (stdout w ++ summary2 (caller_names d) c10 c01 c11)
             (stderr w) (figure w) (saved w)).
Proof.
  intros Hn Hnames H1 H2 H3. unfold print_summary, summary2.
  rewrite Hn, Hnames, bool_decide_eq_true_2 by done.
  repeat step_lookup. rewrite print_return. simpl. by rewrite <- !app_assoc.
Qed.

Lemma print_summary_3 d n0 n1 n2 c100 c010 c001 c110 c101 c011 c111 w :
  num_callers d = 3 → caller_names d = [n0; n1; n2] →
  counts d !! "100" = Some c100 → counts d !! "010" = Some c010 →
  counts d !! "001" = Some c001 → counts d !! "110" = Some c110 →
  counts d !! "101" = Some c101 → counts d !! "011" = Some c011 →
  counts d !! "111" = Some c111 →
  print_summary d w
  = (Return (),
     mkWorld (stdout w
                ++ summary3 (caller_names d) c100 c010 c001 c110 c101 c011 c111)
             (stderr w) (figure w) (saved w)).
Proof.
  intros Hn Hnames H1 H2 H3 H4 H5 H6 H7. unfold print_summary, summary3.
  rewrite Hn, Hnames, bool_decide_eq_false_2, bool_decide_eq_true_2 by done.
  repeat step_lookup. rewrite print_return. simpl. by rewrite <- !app_assoc.
Qed.

(** The summary on data that hold every count read and as many names as
    callers. *)
Lemma print_summary_lines d w :
  first_missing (counts d) (required_keys (num_callers d)) = None →
  length (caller_names d) = num_callers d →
  print_summary d w
  = (Return (),
     mkWorld (stdout w ++ summary_of d) (stderr w) (figure w) (saved w)).
Proof.
  intros Hkeys Hlen. rewrite first_missing_none in Hkeys.
  unfold summary_of, required_keys in *.
  case_bool_decide as H2; [|case_bool_decide as H3].
  - destruct (Hkeys "10") as [c10 E10]; [set_solver|].
    destruct (Hkeys "01") as [c01 E01]; [set_solver|].
    destruct (Hkeys "11") as [c11 E11]; [set_solver|].
    rewrite H2 in Hlen.
    destruct (caller_names d) as [|n0 [|n1 [|n2 l]]] eqn:Hnames;
      try discriminate Hlen.
    rewrite (count_of_some _ _ _ E10), (count_of_some _ _ _ E01),
      (count_of_some _ _ _ E11), <- Hnames.
    by eapply print_summary_2.
  - destruct (Hkeys "100") as [c100 E100]; [set_solver|].
    destruct (Hkeys "010") as [c010 E010]; [set_solver|].
    destruct (Hkeys "001") as [c001 E001]; [set_solver|].
    destruct (Hkeys "110") as [c110 E110]; [set_solver|].
    destruct (Hkeys "101") as [c101 E101]; [set_solver|].
    destruct (Hkeys "011") as [c011 E011]; [set_solver|].
    destruct (Hkeys "111") as [c111 E111]; [set_solver|].
    rewrite H3 in Hlen.
    destruct (caller_names d) as [|n0 [|n1 [|n2 [|n3 l]]]] eqn:Hnames;
      try discriminate Hlen.
    rewrite (count_of_some _ _ _ E100), (count_of_some _ _ _ E010),
      (count_of_some _ _ _ E001), (count_of_some _ _ _ E110),
      (count_of_some _ _ _ E101), (count_of_some _ _ _ E011),
      (count_of_some _ _ _ E111), <- Hnames.
    by eapply print_summary_3.
  - unfold print_summary. rewrite !bool_decide_eq_false_2 by done.
    by rewrite bind_print.
Qed.

Lemma prints_only_ret {A : Type} (a : A) : prints_only (mret a).
Proof. intros w. exists (Return a), []. rewrite app_nil_r. by destruct w. Qed.

Lemma prints_only_raise {A : Type} (e : py_exception) : prints_only (@raise A e).
Proof. intros w. exists (Uncaught e), []. rewrite app_nil_r. by destruct w. Qed.

Lemma prints_only_print (line : string) : prints_only (print line).
Proof. intros w. by exists (Return ()), [line]. Qed.

Lemma prints_only_getitem (d : gmap string nat) (k : string) :
  prints_only (getitem d k).
Proof.
  unfold getitem. destruct (d !! k); [apply prints_only_ret|apply prints_only_raise].
Qed.

Lemma prints_only_getitem_list (l : list string) (i : nat) :
  prints_only (getitem_list l i).
Proof.
  unfold getitem_list.
  destruct (l !! i); [apply prints_only_ret|apply prints_only_raise].
Qed.

Lemma prints_only_bind {A B : Type} (m : py A) (f : A → py B) :
  prints_only m → (∀ a, prints_only (f a)) → prints_only (m ≫= f).
Proof.
  intros Hm Hf w. destruct (Hm w) as (o & out & Hw).
  unfold mbind, py_bind. rewrite Hw. destruct o as [a|code|e].
  - destruct (Hf a (mkWorld (stdout w ++ out) (stderr w) (figure w) (saved w)))
      as (o' & out' & Hw').
    exists o', (out ++ out'). rewrite Hw'. simpl. by rewrite <- app_assoc.
  - by exists (SysExit code), out.
  - by exists (Uncaught e), out.
Qed.

Lemma print_summary_prints_only (d : data) : prints_only (print_summary d).
Proof.
  unfold print_summary.
  repeat first
    [ apply prints_only_bind; [|intros ?]
    | apply prints_only_print
    | apply prints_only_getitem
    | apply prints_only_getitem_list
    | apply prints_only_ret
    | case_bool_decide ].
Qed.

Lemma print_summary_short_names d w :
  num_callers d = 2 ∨ num_callers d = 3 →
  first_missing (counts d) (required_keys (num_callers d)) = None →
  length (caller_names d) < num_callers d →
  (print_summary d w).1 = Uncaught (IndexError (length (caller_names d))).
Proof.
  intros Hn Hkeys Hlen. rewrite first_missing_none in Hkeys.
  unfold print_summary, required_keys in *.
  destruct Hn as [Hn|Hn]; rewrite Hn in *.
  - rewrite bool_decide_eq_true_2 in * by done.
    destruct (Hkeys "10") as [c10 E10]; [set_solver|].
    destruct (Hkeys "01") as [c01 E01]; [set_solver|].
    destruct (Hkeys "11") as [c11 E11]; [set_solver|].
    destruct (caller_names d) as [|n0 [|n1 l]]; simpl in Hlen; try lia;
      repeat step_lookup; done.
  - rewrite bool_decide_eq_false_2, !bool_decide_eq_true_2 in * by done.
    destruct (Hkeys "100") as [c100 E100]; [set_solver|].
    destruct (Hkeys "010") as [c010 E010]; [set_solver|].
    destruct (Hkeys "001") as [c001 E001]; [set_solver|].
    destruct (Hkeys "110") as [c110 E110]; [set_solver|].
    destruct (Hkeys "101") as [c101 E101]; [set_solver|].
    destruct (Hkeys "011") as [c011 E011]; [set_solver|].
    destruct (Hkeys "111") as [c111 E111]; [set_solver|].
    destruct (caller_names d) as [|n0 [|n1 [|n2 l]]]; simpl in Hlen; try lia;
      repeat step_lookup; done.
Qed.

Lemma print_summary_returns d w :
  first_missing (counts d) (required_keys (num_callers d)) = None →
  (num_callers d = 2 ∨ num_callers d = 3 →
   (num_callers d ≤ length (caller_names d))%nat) →
  (print_summary d w).1 = Return ().
Proof.
  intros Hkeys Hlen. rewrite first_missing_none in Hkeys.
  unfold print_summary, required_keys in *.
  case_bool_decide as H2; [|case_bool_decide as H3].
  - destruct (Hkeys "10") as [c10 E10]; [set_solver|].
    destruct (Hkeys "01") as [c01 E01]; [set_solver|].
    destruct (Hkeys "11") as [c11 E11]; [set_solver|].
    specialize (Hlen (or_introl H2)). rewrite H2 in Hlen.
    destruct (caller_names d) as [|n0 [|n1 l]]; simpl in Hlen; try lia.
    repeat step_lookup. done.
  - destruct (Hkeys "100") as [c100 E100]; [set_solver|].
    destruct (Hkeys "010") as [c010 E010]; [set_solver|].
    destruct (Hkeys "001") as [c001 E001]; [set_solver|].
    destruct (Hkeys "110") as [c110 E110]; [set_solver|].
    destruct (Hkeys "101") as [c101 E101]; [set_solver|].
    destruct (Hkeys "011") as [c011 E011]; [set_solver|].
    destruct (Hkeys "111") as [c111 E111]; [set_solver|].
    specialize (Hlen (or_intror H3)). rewrite H3 in Hlen.
    destruct (caller_names d) as [|n0 [|n1 [|n2 l]]]; simpl in Hlen; try lia.
    repeat step_lookup. done.
  - by erewrite bind_return by apply print_return.
Qed.

Lemma renderable_spec (d : data) :
  renderable d = true
  ↔ first_missing (counts d) (required_keys (num_callers d)) = None
    ∧ (num_callers d = 2 ∨ num_callers d = 3 →
       (num_callers d ≤ length (caller_names d))%nat).
Proof.
  unfold renderable. rewrite andb_true_iff, orb_true_iff, !bool_decide_eq_true.
  rewrite first_missing_none, forallb_forall.
  split; intros [Hkeys Hnames]; split.
  - intros k Hk%list_elem_of_In. specialize (Hkeys k Hk).
    by apply bool_decide_eq_true in Hkeys.
  - intros Hn. destruct Hnames as [[??]|?]; [lia|done].
  - intros k Hk%list_elem_of_In. apply bool_decide_eq_true_2. by apply Hkeys.
  - destruct (decide (num_callers d = 2 ∨ num_callers d = 3)) as [Hn|Hn];
      [right; auto|left; lia].
Qed.


Lemma figure_of_no_rescale (d : data) (args : Args) : no_rescale (figure_of d args).
Proof.
  unfold figure_of, figure2, figure3, circles2, circles3, no_rescale.
  repeat case_bool_decide; by repeat constructor.
Qed.

(** No rendering asks a library for a rescaling: the figure is the one
    that was there when [plt.subplots] raised, or none of its calls was
    given a [normalize_to]. *)
Lemma create_venn_diagram_never_rescales lib d args w :
  figure (create_venn_diagram lib d args w).2 = figure w
  ∨ no_rescale (figure (create_venn_diagram lib d args w).2).
Proof.
  destruct (first_missing (counts d) (required_keys (num_callers d)))
    as [k|] eqn:Hkeys.
  - rewrite create_venn_diagram_cases, Hkeys.
    destruct (lib (plt_subplots (figsize args))); [by left|right; constructor].
  - pose proof (create_venn_diagram_run lib d args w Hkeys) as Hrun.
    destruct (first_failure lib _) as [e|].
    + destruct Hrun as (fig & [[_ ->]|[_ Hpre]] & ->); [by left|right].
      eapply no_rescale_prefix; [done|apply figure_of_no_rescale].
    + rewrite Hrun.
      destruct (print_summary_prints_only d
                  (mkWorld (stdout w ++ ["Venn diagram saved to: " +:+ output args])
                     (stderr w) (figure_of d args)
                     (saved w ++ [mkSaved (output args) (dpi args) (figure_of d args)])))
        as (o & out & ->).
      right. apply figure_of_no_rescale.
Qed.

(** ** Runs of [main] in closed form *)

Lemma main_start read_csv lib args w :
  main read_csv lib args w
  = (read_tsv_and_count_variants read_csv (input args) ≫= λ d,
       print ("Creating " +:+ pretty (num_callers d) +:+ "-way Venn diagram...");;
       create_venn_diagram lib d args;;
       print (newline +:+ "Done!")) (after_banner args w).
Proof.
  unfold main, after_banner, banner.
  do 3 (erewrite bind_return by apply print_return). simpl.
  by rewrite <- !app_assoc.
Qed.

Lemma main_exits read_csv lib args w code w' :
  read_tsv_and_count_variants read_csv (input args) (after_banner args w)
  = (SysExit code, w') →
  main read_csv lib args w = (SysExit code, w').
Proof. intros H. rewrite main_start. by apply bind_exit. Qed.

Lemma read_tsv_counted read_csv path df w :
  read_csv path = inr df →
  (2 ≤ length (recognized_columns (columns df)))%nat →
  read_tsv_and_count_variants read_csv path w
  = (Return (counted df), (print (found_line (recognized_columns (columns df))) w).2).
Proof.
  intros Hread Hlen. rewrite (read_tsv_table _ _ _ _ Hread).
  destruct df as [cols rs]. by apply count_table_enough.
Qed.

Lemma dom_counts_for cols rs callers :
  dom (counts_for cols rs callers)
  = (list_to_set (required_keys (length callers)) : gset string).
Proof.
  destruct callers as [|c1 [|c2 [|c3 [|c4 cc]]]]; simpl;
    try (by rewrite dom_empty_L).
  - unfold counts2. rewrite !dom_insert_L, dom_empty_L. by vm_compute.
  - unfold counts3. rewrite !dom_insert_L, dom_empty_L. by vm_compute.
Qed.

Lemma first_missing_counted (df : DataFrame) :
  first_missing (counts (counted df)) (required_keys (num_callers (counted df)))
  = None.
Proof.
  apply first_missing_none. intros k Hk. apply elem_of_dom.
  unfold counted in *. cbn [counts num_callers] in *.
  rewrite dom_counts_for. by apply elem_of_list_to_set.
Qed.

(** A run on a table with at least two recognized columns, up to the
    call of the renderer. *)
Lemma main_counted read_csv lib args w df :
  read_csv (input args) = inr df →
  (2 ≤ length (recognized_columns (columns df)))%nat →
  main read_csv lib args w
  = (create_venn_diagram lib (counted df) args;; print (newline +:+ "Done!"))
      (mkWorld (stdout w ++ banner args
                  ++ [found_line (caller_names (counted df));
                      "Creating " +:+ pretty (num_callers (counted df))
                        +:+ "-way Venn diagram..."])
               (stderr w) (figure w) (saved w)).
Proof.
  intros Hread Hlen. rewrite main_start.
  erewrite bind_return by (by apply read_tsv_counted).
  rewrite bind_print. unfold after_banner.
  cbn [stdout stderr figure saved snd print counted caller_names].
  by rewrite <- !app_assoc.
Qed.

(** When each call of the rendering returns, the run returns. *)
Lemma main_counted_accepted read_csv lib args w df :
  read_csv (input args) = inr df →
  (2 ≤ length (recognized_columns (columns df)))%nat →
  first_failure lib (render_calls args (figure_of (counted df) args)) = None →
  main read_csv lib args w = (Return (), final_world df args w).
Proof.
  intros Hread Hlen Hlib. rewrite (main_counted _ _ _ _ _ Hread Hlen).
  pose proof (create_venn_diagram_run lib (counted df) args
    (mkWorld (stdout w ++ banner args
                  ++ [found_line (caller_names (counted df));
                      "Creating " +:+ pretty (num_callers (counted df))
                        +:+ "-way Venn diagram..."])
               (stderr w) (figure w) (saved w))
    (first_missing_counted df)) as Hrun.
  rewrite Hlib in Hrun.
  erewrite bind_return;
    [|rewrite Hrun; apply print_summary_lines; [apply first_missing_counted|done]].
  rewrite print_return. unfold final_world.
  cbn [stdout stderr figure saved]. by rewrite <- !app_assoc.
Qed.

(** When a call of the rendering raises, the run ends by that exception:
    nothing is saved and nothing is written on the error stream. *)
Lemma main_counted_rejected read_csv lib args w df e :
  read_csv (input args) = inr df →
  (2 ≤ length (recognized_columns (columns df)))%nat →
  first_failure lib (render_calls args (figure_of (counted df) args)) = Some e →
  ∃ fig,
    (fig = figure w ∨ fig `prefix_of` figure_of (counted df) args)
    ∧ main read_csv lib args w
      = (Uncaught (LibraryError e),
         mkWorld (stdout w ++ banner args
                    ++ [found_line (caller_names (counted df));
                        "Creating " +:+ pretty (num_callers (counted df))
                          +:+ "-way Venn diagram..."])
                 (stderr w) fig (saved w)).
Proof.
  intros Hread Hlen Hlib. rewrite (main_counted _ _ _ _ _ Hread Hlen).
  pose proof (create_venn_diagram_run lib (counted df) args
    (mkWorld (stdout w ++ banner args
                  ++ [found_line (caller_names (counted df));
                      "Creating " +:+ pretty (num_callers (counted df))
                        +:+ "-way Venn diagram..."])
               (stderr w) (figure w) (saved w))
    (first_missing_counted df)) as Hrun.
  rewrite Hlib in Hrun. destruct Hrun as (fig & Hfig & Hrun).
  exists fig. split; [destruct Hfig as [[_ ->]|[_ ?]]; auto|].
  by erewrite bind_raise by apply Hrun.
Qed.
(** ** When the hint is computed *)

Lemma foldl_max_spec (x : nat) (l : list nat) :
  foldl Nat.max x l ∈ x :: l ∧ ∀ y, y ∈ x :: l → (y ≤ foldl Nat.max x l)%nat.
Proof.
  revert x. induction l as [|z l IH]; intros x; simpl.
  - split; [by left|]. intros y ->%list_elem_of_singleton. done.
  - destruct (IH (x `max` z)) as [Hin Hle]. split.
    + apply elem_of_cons in Hin as [Heq|Hin]; [|by do 2 right].
      rewrite Heq. destruct (Nat.max_spec x z) as [[_ ->]|[_ ->]];
        [right; left|left].
    + intros y Hy. assert (x `max` z ≤ foldl Nat.max (x `max` z) l)%nat as Hm
        by (apply Hle; by left).
      apply elem_of_cons in Hy as [->|Hy]; [lia|].
      apply elem_of_cons in Hy as [->|Hy]; [lia|].
      apply Hle. by right.
Qed.

Lemma foldl_min_spec (x : nat) (l : list nat) :
  foldl Nat.min x l ∈ x :: l ∧ ∀ y, y ∈ x :: l → (foldl Nat.min x l ≤ y)%nat.
Proof.
  revert x. induction l as [|z l IH]; intros x; simpl.
  - split; [by left|]. intros y ->%list_elem_of_singleton. done.
  - destruct (IH (x `min` z)) as [Hin Hle]. split.
    + apply elem_of_cons in Hin as [Heq|Hin]; [|by do 2 right].
      rewrite Heq. destruct (Nat.min_spec x z) as [[_ ->]|[_ ->]];
        [left|right; left].
    + intros y Hy. assert (foldl Nat.min (x `min` z) l ≤ x `min` z)%nat as Hm
        by (apply Hle; by left).
      apply elem_of_cons in Hy as [->|Hy]; [lia|].
      apply elem_of_cons in Hy as [->|Hy]; [lia|].
      apply Hle. by right.
Qed.

Lemma py_max_spec (l : list nat) (m : nat) :
  py_max l = Some m ↔ m ∈ l ∧ ∀ y, y ∈ l → (y ≤ m)%nat.
Proof.
  destruct l as [|x l]; simpl.
  - split; [done|]. by intros [?%elem_of_nil _].
  - destruct (foldl_max_spec x l) as [Hin Hle]. split.
    + by intros [= <-].
    + intros [Hm Hall]. f_equal. apply Nat.le_antisymm; auto.
Qed.

Lemma py_min_spec (l : list nat) (m : nat) :
  py_min l = Some m ↔ m ∈ l ∧ ∀ y, y ∈ l → (m ≤ y)%nat.
Proof.
  destruct l as [|x l]; simpl.
  - split; [done|]. by intros [?%elem_of_nil _].
  - destruct (foldl_min_spec x l) as [Hin Hle]. split.
    + by intros [= <-].
    + intros [Hm Hall]. f_equal. apply Nat.le_antisymm; auto.
Qed.

(** The hint is 'region' exactly when the largest count exceeds ten times
    the smallest non-zero count. *)
Lemma hint_of_region (l : list nat) :
  hint_of l = Some "region"
  ↔ ∃ largest smallest,
      (largest ∈ l ∧ ∀ y, y ∈ l → (y ≤ largest)%nat)
      ∧ (smallest ∈ l ∧ 0 < smallest
         ∧ ∀ y, y ∈ l → 0 < y → (smallest ≤ y)%nat)
      ∧ 10 * smallest < largest.
Proof.
  unfold hint_of. split.
  - case_bool_decide as Hlt; [intros _|done].
    destruct (py_max l) as [big|] eqn:Hbig; simpl in Hlt.
    + apply py_max_spec in Hbig as Hbig'. destruct Hbig' as [Hbin Hble].
      destruct (existsb _ l) eqn:Hany.
      * destruct (py_min_filter_positive l Hany) as [small Hsmall].
        rewrite Hsmall in Hlt. simpl in Hlt.
        apply py_min_spec in Hsmall as [Hin Hle].
        apply list_elem_of_filter in Hin as [Hpos Hin].
        exists big, small. split_and!; try done; try lia.
        intros y Hy Hy0. apply Hle. by apply list_elem_of_filter.
      * exfalso. pose proof Hbin as Hin.
        assert (existsb (λ c, bool_decide (0 < c)) l = true); [|congruence].
        apply existsb_exists. exists big. split; [by apply list_elem_of_In|].
        apply bool_decide_eq_true. lia.
    + destruct l; [|done]. simpl in Hlt. lia.
  - intros (big & small & Hbig & (Hin & Hpos & Hle) & Hlt).
    apply py_max_spec in Hbig. rewrite Hbig. simpl.
    assert (existsb (λ c, bool_decide (0 < c)) l = true) as ->.
    { apply existsb_exists. exists small. split; [by apply list_elem_of_In|].
      by apply bool_decide_eq_true. }
    assert (py_min (filter (λ c, 0 < c) l) = Some small) as ->.
    { apply py_min_spec. split; [by apply list_elem_of_filter|].
      intros y [Hy0 Hy]%list_elem_of_filter. by apply Hle. }
    simpl. by rewrite bool_decide_eq_true_2.
Qed.

(** ** Substrings *)

Lemma prefix_append (n s : string) : String.prefix n (n +:+ s) = true.
Proof.
  induction n as [|a n IH]; simpl; [by destruct s|].
  destruct (Ascii.ascii_dec a a); [done|congruence].
Qed.

Lemma is_substring_prefix (n h : string) :
  String.prefix n h = true → is_substring n h = true.
Proof. destruct h; simpl; by intros ->. Qed.

Lemma is_substring_here (n s : string) : is_substring n (n +:+ s) = true.
Proof. apply is_substring_prefix, prefix_append. Qed.

Lemma append_empty_r (s : string) : s +:+ "" = s.
Proof.
  induction s as [|a s IH]; [done|].
  change (String a (s +:+ "") = String a s). by rewrite IH.
Qed.

Lemma is_substring_refl (n : string) : is_substring n n = true.
Proof. rewrite <- (append_empty_r n) at 2. apply is_substring_here. Qed.

Lemma is_substring_skip (n p s : string) :
  is_substring n s = true → is_substring n (p +:+ s) = true.
Proof.
  intros H. induction p as [|a p IH]; simpl; [done|].
  rewrite IH. apply orb_true_r.
Qed.

Lemma prefix_append_r (n s t : string) :
  String.prefix n s = true → String.prefix n (s +:+ t) = true.
Proof.
  revert s. induction n as [|a n IH]; intros s; [by destruct (s +:+ t)|].
  destruct s as [|b s]; simpl; [done|].
  destruct (Ascii.ascii_dec a b); [apply IH|done].
Qed.

Lemma is_substring_append_r (n s t : string) :
  is_substring n s = true → is_substring n (s +:+ t) = true.
Proof.
  induction s as [|b s IH]; simpl.
  - destruct n; [intros _; by destruct t|done].
  - intros [H|H]%orb_true_iff.
    + apply (prefix_append_r _ (String b s) t) in H. simpl in H.
      by rewrite H.
    + rewrite (IH H). apply orb_true_r.
Qed.

Lemma is_substring_concat (sep x : string) (l : list string) :
  x ∈ l → is_substring x (String.concat sep l) = true.
Proof.
  induction l as [|y l IH]; intros Hx; [by apply elem_of_nil in Hx|].
  apply elem_of_cons in Hx as [->|Hx].
  - destruct l; simpl; [apply is_substring_refl|apply is_substring_here].
  - destruct l as [|z l]; [by apply elem_of_nil in Hx|].
    change (String.concat sep (y :: z :: l))
      with (y +:+ (sep +:+ String.concat sep (z :: l))).
    by apply is_substring_skip, is_substring_skip, IH.
Qed.

Lemma columns_enumerated (cols : list string) (c : string) :
  c ∈ cols →
  is_substring (py_repr_str c) ("Available columns: " +:+ py_repr_list cols) = true.
Proof.
  intros Hc. apply is_substring_skip. unfold py_repr_list.
  apply (is_substring_skip _ "["), is_substring_append_r, is_substring_concat.
  apply list_elem_of_fmap. by exists c.
Qed.

(** ** The partition of the rows *)




(** C2: on the table of scenario A the counter returns the callers
    Bcftools and FreeBayes with counts 10:2, 01:1, 11:1; four rows are
    classified and the one (0,0) row is in no bucket. *)
Theorem C2_scenario_A_counts
    (read_csv : string → string + DataFrame) (path : string) (w : world) :
  read_csv path = inr scenario_A →
  (read_tsv_and_count_variants read_csv path w).1
  = Return (mkData ["Bcftools"; "FreeBayes"]
                   {[ "10" := 2; "01" := 1; "11" := 1 ]} 2)
  ∧ total_counted ({[ "10" := 2; "01" := 1; "11" := 1 ]} : gmap string nat) = 4
  ∧ count_rows (all_zero_row (columns scenario_A) ["Bcftools"; "FreeBayes"])
      (rows scenario_A) = 1.
Proof.
  intros Hread. rewrite (read_tsv_table _ _ _ _ Hread). split_and!.
  - unfold scenario_A. rewrite count_table_enough by (vm_compute; lia).
    simpl. by vm_compute.
  - by vm_compute.
  - by vm_compute.
Qed.

Lemma C2_scenario_A_counts_witness :
  (read_tsv_and_count_variants (λ _, inr scenario_A) "summary.tsv" empty_world).1
  = Return (mkData ["Bcftools"; "FreeBayes"]
                   {[ "10" := 2; "01" := 1; "11" := 1 ]} 2).
Proof.
  apply (C2_scenario_A_counts (λ _, inr scenario_A) "summary.tsv" empty_world).
  reflexivity.
Defined.

(** ** More than three recognized columns *)

(** C4: with more than three recognized columns the code cuts nothing
    down to three.  The counter returns every recognized column, in the
    order of the fixed list (four to six names), [num_callers] is their
    number, and since neither branch of the counting applies, the dict
    of counts is left empty. *)
Theorem C4_more_than_three_not_truncated
    (read_csv : string → string + DataFrame) (path : string) (w : world)
    (df : DataFrame) :
  read_csv path = inr df →
  3 < length (select_callers (columns df)).1 →
  (read_tsv_and_count_variants read_csv path w).1
  = Return (mkData (recognized_columns (columns df)) ∅
                   (length (recognized_columns (columns df))))
  ∧ 3 < length (recognized_columns (columns df))
  ∧ (length (recognized_columns (columns df)) ≤ 6)%nat.
Proof.
  intros Hread Hlen. rewrite select_callers_recognized in Hlen. simpl in Hlen.
  rewrite (read_tsv_table _ _ _ _ Hread). destruct df as [cols rs]. simpl in *.
  rewrite count_table_enough by lia. split_and!; [|done|apply recognized_length_le].
  simpl. do 2 f_equal.
  destruct (recognized_columns cols) as [|c1 [|c2 [|c3 [|c4 cc]]]];
    simpl in Hlen; try lia; done.
Qed.

Lemma C4_more_than_three_not_truncated_witness :
  3 < length (select_callers (columns four_caller_table)).1
  ∧ (read_tsv_and_count_variants (λ _, inr four_caller_table) "summary.tsv"
       empty_world).1
    = Return (mkData (recognized_columns (columns four_caller_table)) ∅
                     (length (recognized_columns (columns four_caller_table)))).
Proof.
  split; [vm_compute; lia|].
  apply (C4_more_than_three_not_truncated (λ _, inr four_caller_table)
           "summary.tsv" empty_world four_caller_table);
    [reflexivity|vm_compute; lia].
Defined.

(** C4 as stated fails on the table with four recognized columns: the
    counter returns no caller sequence of length three with counts, it
    returns all four names and no counts. *)
Lemma C4_fails_with_four_callers :
  (read_tsv_and_count_variants (λ _, inr four_caller_table) "summary.tsv"
     empty_world).1
  = Return (mkData ["Bcftools"; "FreeBayes"; "GATK"; "bcftools"] ∅ 4)
  ∧ ¬ ∃ d, (read_tsv_and_count_variants (λ _, inr four_caller_table)
              "summary.tsv" empty_world).1 = Return d
         ∧ length (caller_names d) = 3
         ∧ size (counts d) = 7.
Proof.
  split; [reflexivity|].
  intros (d & Hd & Hlen & _). vm_compute in Hd.
  injection Hd as <-. simpl in Hlen. discriminate.
Qed.

(** ** Rows with a value that is neither 0 nor 1 *)

(** C10: a row that holds, in some selected caller column, a value equal
    to neither 0 nor 1 is counted in no bucket: the run on the table with
    the row is the run on the table without it, counts included. *)
Theorem C10_non_binary_row_counted_nowhere
    (read_csv read_csv' : string → string + DataFrame) (path : string) (w : world)
    (cols : list string) (rs1 rs2 : list (list cell)) (r : list cell) :
  read_csv path = inr (mkDataFrame cols (rs1 ++ r :: rs2)) →
  read_csv' path = inr (mkDataFrame cols (rs1 ++ rs2)) →
  existsb (λ c, negb (is_binary (flag_of cols r c))) (select_callers cols).1 = true →
  read_tsv_and_count_variants read_csv path w
  = read_tsv_and_count_variants read_csv' path w.
Proof.
  intros Hread Hread' Hbad.
  rewrite select_callers_recognized in Hbad. simpl in Hbad.
  apply existsb_exists in Hbad as (c & Hc%list_elem_of_In & Hneg%negb_true_iff).
  rewrite (read_tsv_table _ _ _ _ Hread), (read_tsv_table _ _ _ _ Hread').
  destruct (decide (length (recognized_columns cols) < 2)) as [Hfew|Henough].
  - by rewrite !count_table_few.
  - rewrite !count_table_enough by lia.
    by rewrite (counts_for_not_binary cols _ c rs1 r rs2).
Qed.

Lemma C10_non_binary_row_counted_nowhere_witness :
  existsb (λ c, negb (is_binary (flag_of (columns table_with_missing)
                                   [CStr "chr1"; CInt 1; CNaN; CInt 1] c)))
    (select_callers (columns table_with_missing)).1 = true
  ∧ read_tsv_and_count_variants (λ _, inr table_with_missing) "summary.tsv"
      empty_world
    = read_tsv_and_count_variants (λ _, inr table_without_missing) "summary.tsv"
        empty_world.
Proof.
  split; [reflexivity|].
  apply (C10_non_binary_row_counted_nowhere
           (λ _, inr table_with_missing) (λ _, inr table_without_missing)
           "summary.tsv" empty_world
           ["CHROM"; "GATK"; "Bcftools"; "FreeBayes"]
           [[CStr "chr1"; CInt 1; CFloat 1; CInt 0]]
           [[CStr "chr2"; CInt 0; CFloat 0; CInt 1]]
           [CStr "chr1"; CInt 1; CNaN; CInt 1]);
    reflexivity.
Defined.

(** The counts of the table with the missing value: the second row, whose
    other two flags are set, is in none of the seven buckets. *)
Example table_with_missing_counts :
  (read_tsv_and_count_variants (λ _, inr table_with_missing) "summary.tsv"
     empty_world).1
  = Return (mkData ["Bcftools"; "FreeBayes"; "GATK"]
              {[ "100" := 0; "010" := 1; "001" := 0; "110" := 0;
                 "101" := 1; "011" := 0; "111" := 0 ]} 3).
Proof. by vm_compute. Qed.

(** ** Aborted runs *)

(** C5, amended: with fewer than two recognized caller columns the run
    ends by [sys.exit(1)] after the banner: no counts are returned, no
    library call is made and no file is saved, and the two lines on the
    error stream are the fixed message and the [repr] of the list of all
    columns of the table, each column being shown in it.  The recognized
    names are not part of the message. *)
Theorem C5_insufficient_columns_abort
    (read_csv : string → string + DataFrame) (lib : library) (args : Args)
    (w : world) (df : DataFrame) :
  read_csv (input args) = inr df →
  length (select_callers (columns df)).1 < 2 →
  main read_csv lib args w
  = (SysExit 1,
     mkWorld (stdout w ++ banner args)
             (stderr w ++ insufficient_columns_lines (columns df))
             (figure w) (saved w))
  ∧ (∀ c, c ∈ columns df →
       mentions (insufficient_columns_lines (columns df)) (py_repr_str c) = true).
Proof.
  intros Hread Hlen. rewrite select_callers_recognized in Hlen. simpl in Hlen.
  destruct df as [cols rs]. cbn [columns] in *. split.
  - apply main_exits. rewrite (read_tsv_table _ _ _ _ Hread).
    by rewrite count_table_few.
  - intros c Hc. unfold mentions, insufficient_columns_lines.
    apply existsb_exists. eexists. split; [right; left; reflexivity|].
    by apply columns_enumerated.
Qed.

Lemma C5_insufficient_columns_abort_witness :
  length (select_callers (columns no_caller_table)).1 < 2
  ∧ main (λ _, inr no_caller_table) accepting default_args empty_world
    = (SysExit 1,
       mkWorld (banner default_args)
               (insufficient_columns_lines (columns no_caller_table)) [] []).
Proof.
  split; [vm_compute; lia|].
  apply (C5_insufficient_columns_abort (λ _, inr no_caller_table) accepting
           default_args empty_world no_caller_table);
    [reflexivity|vm_compute; lia].
Defined.

(** C5 as stated fails on a table with the columns CHROM and POS: the run
    exits with code 1 and the error stream names the two columns, but
    none of the six recognized names is on it. *)
Lemma C5_expected_set_not_printed :
  (main (λ _, inr no_caller_table) accepting default_args empty_world).1
  = SysExit 1
  ∧ stderr (main (λ _, inr no_caller_table) accepting default_args empty_world).2
    = ["Error: Could not find at least 2 caller columns in TSV file";
       "Available columns: ['CHROM', 'POS']"]
  ∧ existsb
      (mentions (stderr (main (λ _, inr no_caller_table) accepting default_args
                           empty_world).2))
      possible_callers = false.
Proof. by vm_compute. Qed.

(** C6: when [pd.read_csv] raises on the input path, the run ends by
    [sys.exit(1)] after the banner, the one line on the error stream
    carries the text of the exception, and nothing is drawn or saved. *)
Theorem C6_read_failure_abort
    (read_csv : string → string + DataFrame) (lib : library) (args : Args)
    (w : world) (e : string) :
  read_csv (input args) = inl e →
  main read_csv lib args w
  = (SysExit 1,
     mkWorld (stdout w ++ banner args)
             (stderr w ++ ["Error reading TSV file: " +:+ e])
             (figure w) (saved w)).
Proof.
  intros Hread. apply main_exits. by rewrite (read_tsv_failure _ _ e).
Qed.

Lemma C6_read_failure_abort_witness :
  main missing_file accepting default_args empty_world
  = (SysExit 1,
     mkWorld (banner default_args)
       ["Error reading TSV file: [Errno 2] No such file or directory: 'summary.tsv'"]
       [] []).
Proof.
  apply (C6_read_failure_abort missing_file accepting default_args empty_world
           "[Errno 2] No such file or directory: 'summary.tsv'").
  reflexivity.
Defined.

(** ** A table of all-zero rows *)



(** The whole run on scenario C, on libraries that accept every call. *)
Example scenario_C_run :
  main (λ _, inr scenario_C) accepting default_args empty_world
  = (Return (),
     mkWorld
       (banner default_args
        ++ ["Found 3 callers: Bcftools, FreeBayes, GATK";
            "Creating 3-way Venn diagram...";
            "Venn diagram saved to: venn.png";
            newline +:+ "Variant counts:";
            "  Unique to Bcftools: 0"; "  Unique to FreeBayes: 0";
            "  Unique to GATK: 0"; "  Bcftools & FreeBayes only: 0";
            "  Bcftools & GATK only: 0"; "  FreeBayes & GATK only: 0";
            "  Common to all three: 0";
            newline +:+ "Done!"])
       []
       [venn3 (0, 0, 0, 0, 0, 0, 0) ["Bcftools"; "FreeBayes"; "GATK"]
              ("#456f01", "#00688B", "#ffac12") (1 # 2);
        venn3_circles (0, 0, 0, 0, 0, 0, 0) "-" (2 # 1)]
       [mkSaved "venn.png" 300
          [venn3 (0, 0, 0, 0, 0, 0, 0) ["Bcftools"; "FreeBayes"; "GATK"]
                 ("#456f01", "#00688B", "#ffac12") (1 # 2);
           venn3_circles (0, 0, 0, 0, 0, 0, 0) "-" (2 # 1)]]).
Proof. by vm_compute. Qed.

(** The same run when the output path cannot be written: the diagram is
    drawn, [plt.savefig] raises, and no file is saved. *)
Example scenario_C_unwritable :
  (main (λ _, inr scenario_C) unwritable default_args empty_world).1
  = Uncaught (LibraryError "[Errno 13] Permission denied: 'venn.png'")
  ∧ saved (main (λ _, inr scenario_C) unwritable default_args empty_world).2 = [].
Proof. by vm_compute. Qed.

(** ** The rescaling hint *)

(** No run of [main] asks a library for a rescaling. *)
Lemma main_never_rescales read_csv lib args w :
  figure (main read_csv lib args w).2 = figure w
  ∨ no_rescale (figure (main read_csv lib args w).2).
Proof.
  destruct (read_csv (input args)) as [e|df] eqn:Hread.
  { left. by rewrite (main_exits _ _ _ _ _ _ (read_tsv_failure _ _ e _ Hread)). }
  destruct (decide (length (recognized_columns (columns df)) < 2)) as [Hfew|Hlen].
  { left. destruct df as [cols rs]. cbn [columns] in Hfew.
    pose proof (count_table_few cols rs (after_banner args w) Hfew) as Hexit.
    rewrite <- (read_tsv_table _ _ _ _ Hread) in Hexit.
    by rewrite (main_exits _ _ _ _ _ _ Hexit). }
  assert (2 ≤ length (recognized_columns (columns df)))%nat as Henough by lia.
  destruct (first_failure lib (render_calls args (figure_of (counted df) args)))
    as [e|] eqn:Hlib.
  - destruct (main_counted_rejected _ _ _ w _ _ Hread Henough Hlib)
      as (fig & [->|Hpre] & ->); [by left|right].
    eapply no_rescale_prefix; [done|apply figure_of_no_rescale].
  - rewrite (main_counted_accepted _ _ _ w _ Hread Henough Hlib).
    right. apply figure_of_no_rescale.
Qed.

(** C9 on the unbalanced table: the counter returns three callers with
    the largest bucket above ten times the smallest non-zero one, the
    hint is computed as 'region', and yet the only library calls of the
    run are [venn3] and [venn3_circles], neither of which is given it;
    whatever the libraries do, no call on the axes is given it. *)
Theorem C9_hint_computed_but_never_passed :
  (read_tsv_and_count_variants (λ _, inr unbalanced_table) "summary.tsv"
     empty_world).1 = Return unbalanced_data
  ∧ (normalize_hint (counts unbalanced_data) (num_callers unbalanced_data)
       empty_world).1 = Return (Some "region")
  ∧ (main (λ _, inr unbalanced_table) accepting default_args empty_world).1
    = Return ()
  ∧ figure (main (λ _, inr unbalanced_table) accepting default_args empty_world).2
    = [venn3 (12, 1, 0, 0, 0, 0, 0) ["Bcftools"; "FreeBayes"; "GATK"]
             ("#456f01", "#00688B", "#ffac12") (1 # 2);
       venn3_circles (12, 1, 0, 0, 0, 0, 0) "-" (2 # 1)]
  ∧ ∀ lib : library,
      forallb (λ c, bool_decide (normalize_to_of c = None))
        (figure (main (λ _, inr unbalanced_table) lib default_args empty_world).2)
      = true.
Proof.
  split_and!; [by vm_compute..|]. intros lib.
  apply forallb_forall. intros c Hc%list_elem_of_In. apply bool_decide_eq_true_2.
  destruct (main_never_rescales (λ _, inr unbalanced_table) lib default_args
              empty_world) as [Hsame|Hno].
  - rewrite Hsame in Hc. by apply elem_of_nil in Hc.
  - by eapply Forall_forall in Hno.
Qed.

(** * Further properties of the converters, the counter and the renderer *)

(** ** The option converters *)

(** Case analysis on a pair that is an element of a list written out. *)
Ltac in_table H :=
  repeat (apply elem_of_cons in H as [H|H]; [injection H as -> ->|]);
  try (by apply elem_of_nil in H).

Lemma r_color_entry (color hex : string) :
  r_to_mpl_colors !! color = Some hex →
  r_to_mpl_colors !! hex = None ∧ String.prefix "#" hex = true
  ∧ String.prefix "#" color = false ∧ String.length hex = 7.
Proof.
  intros H. unfold r_to_mpl_colors in H. apply elem_of_list_to_map_2 in H.
  in_table H; by vm_compute.
Qed.

(** X1: converting a colour twice is converting it once: the hex codes of
    the table are not R names. *)
Theorem X1_color_conversion_idempotent (color : string) :
  convert_r_color_to_matplotlib (convert_r_color_to_matplotlib color)
  = convert_r_color_to_matplotlib color.
Proof.
  unfold convert_r_color_to_matplotlib.
  destruct (r_to_mpl_colors !! color) as [hex|] eqn:H; cbn [from_option id].
  - apply r_color_entry in H as [-> _]. done.
  - by rewrite H.
Qed.

(** X2: a colour is either returned as it is or replaced by a hex code of
    seven characters; a colour that starts with [#] is never replaced. *)
Theorem X2_color_conversion_keeps_hex (color : string) :
  (convert_r_color_to_matplotlib color = color
   ∨ (String.prefix "#" (convert_r_color_to_matplotlib color) = true
      ∧ String.length (convert_r_color_to_matplotlib color) = 7))
  ∧ (String.prefix "#" color = true →
     convert_r_color_to_matplotlib color = color).
Proof.
  unfold convert_r_color_to_matplotlib.
  destruct (r_to_mpl_colors !! color) as [hex|] eqn:H; cbn [from_option id].
  - apply r_color_entry in H as (_ & Hhex & Hname & Hlen).
    split; [by right|]. intros Hc. congruence.
  - split; [by left|done].
Qed.

Lemma convert_line_style_empty (outline : string) :
  convert_line_style outline = "" ↔ outline = "none".
Proof.
  unfold convert_line_style.
  destruct (_ !! outline) as [v|] eqn:H; cbn [from_option id].
  - apply elem_of_list_to_map_2 in H. in_table H; done.
  - split; [done|]. intros ->. by vm_compute in H.
Qed.

(** X3: the line style is one of the four matplotlib styles, an unknown
    outline name gives the solid line, and the style is empty (no outline
    is drawn) exactly for the outline [none]. *)
Theorem X3_line_style_empty_only_for_none (outline : string) :
  convert_line_style outline ∈ [""; "-"; "--"; ":"]
  ∧ (outline ∉ ["none"; "solid"; "dashed"; "dotted"] →
     convert_line_style outline = "-")
  ∧ (convert_line_style outline = "" ↔ outline = "none").
Proof.
  split_and!; [| |apply convert_line_style_empty]; unfold convert_line_style;
    (destruct (_ !! outline) as [v|] eqn:H; cbn [from_option id];
     [apply elem_of_list_to_map_2 in H; in_table H; set_solver|set_solver]).
Qed.

(** X4: the font style is [normal] or [italic] and the weight [normal] or
    [bold], an unknown style name gives normal and normal, and the four
    accepted names give four different pairs. *)
Theorem X4_font_style_pairs (style : string) :
  (convert_font_style style).1 ∈ ["normal"; "italic"]
  ∧ (convert_font_style style).2 ∈ ["normal"; "bold"]
  ∧ (style ∉ style_choices → convert_font_style style = ("normal", "normal"))
  ∧ (∀ style', style ∈ style_choices → style' ∈ style_choices →
       convert_font_style style = convert_font_style style' → style = style').
Proof.
  split_and!.
  - unfold convert_font_style. destruct (_ !! style) as [v|] eqn:H; simpl.
    + apply elem_of_list_to_map_2 in H. in_table H; set_solver.
    + set_solver.
  - unfold convert_font_style. destruct (_ !! style) as [v|] eqn:H; simpl.
    + apply elem_of_list_to_map_2 in H. in_table H; set_solver.
    + set_solver.
  - unfold convert_font_style. destruct (_ !! style) as [v|] eqn:H; simpl; [|done].
    apply elem_of_list_to_map_2 in H. unfold style_choices.
    in_table H; set_solver.
  - unfold style_choices. intros style' Hs Hs'.
    repeat (apply elem_of_cons in Hs as [->|Hs]);
      try (by apply elem_of_nil in Hs);
      repeat (apply elem_of_cons in Hs' as [->|Hs']);
      try (by apply elem_of_nil in Hs'); by vm_compute.
Qed.

(** ** More on the counter *)

Lemma row_at_most_once2 cols c1 c2 r :
  (indicator (test2 cols c1 c2 1 1 r)
   + (indicator (test2 cols c1 c2 0 1 r) + indicator (test2 cols c1 c2 1 0 r))
   ≤ 1)%nat.
Proof.
  unfold test2.
  flag_cases (flag_of cols r c1); flag_cases (flag_of cols r c2); simpl; lia.
Qed.

Lemma row_at_most_once3 cols c1 c2 c3 r :
  (indicator (test3 cols c1 c2 c3 1 1 1 r)
   + (indicator (test3 cols c1 c2 c3 0 1 1 r)
   + (indicator (test3 cols c1 c2 c3 1 0 1 r)
   + (indicator (test3 cols c1 c2 c3 1 1 0 r)
   + (indicator (test3 cols c1 c2 c3 0 0 1 r)
   + (indicator (test3 cols c1 c2 c3 0 1 0 r)
   + indicator (test3 cols c1 c2 c3 1 0 0 r))))))
   ≤ 1)%nat.
Proof.
  unfold test3.
  flag_cases (flag_of cols r c1); flag_cases (flag_of cols r c2);
    flag_cases (flag_of cols r c3); simpl; lia.
Qed.

Lemma total_counts_for_le cols rs callers :
  (total_counted (counts_for cols rs callers) ≤ length rs)%nat.
Proof.
  destruct callers as [|c1 [|c2 [|c3 [|c4 cc]]]]; simpl;
    rewrite ?total_counted_empty; try lia.
  - rewrite total_counts2. induction rs as [|r rs IH]; [done|].
    rewrite !count_rows_cons. simpl length.
    pose proof (row_at_most_once2 cols c1 c2 r). lia.
  - rewrite total_counts3. induction rs as [|r rs IH]; [done|].
    rewrite !count_rows_cons. simpl length.
    pose proof (row_at_most_once3 cols c1 c2 c3 r). lia.
Qed.

Lemma total_counted_lookup_le (m : gmap string nat) (k : string) (n : nat) :
  m !! k = Some n → (n ≤ total_counted m)%nat.
Proof.
  intros Hk. rewrite <- (insert_delete_id m k n Hk).
  rewrite total_counted_insert by apply lookup_delete_eq. lia.
Qed.

(** X5: for every table on which the counter returns, also one with
    values other than 0 and 1, no row is counted twice: the bucket counts
    add up to at most the number of rows, and so does each of them. *)
Theorem X5_no_row_counted_twice
    (read_csv : string → string + DataFrame) (path : string) (w : world)
    (df : DataFrame) :
  read_csv path = inr df →
  (2 ≤ length (select_callers (columns df)).1)%nat →
  ∃ d, (read_tsv_and_count_variants read_csv path w).1 = Return d
     ∧ (total_counted (counts d) ≤ length (rows df))%nat
     ∧ ∀ k n, counts d !! k = Some n → (n ≤ length (rows df))%nat.
Proof.
  intros Hread Hlen. rewrite select_callers_recognized in Hlen. simpl in Hlen.
  rewrite (read_tsv_counted _ _ _ _ Hread Hlen). eexists. split; [done|].
  simpl. pose proof (total_counts_for_le (columns df) (rows df)
                       (recognized_columns (columns df))) as Htot.
  split; [done|]. intros k n Hk%total_counted_lookup_le. lia.
Qed.

Lemma X5_no_row_counted_twice_witness :
  (2 ≤ length (select_callers (columns table_with_missing)).1)%nat
  ∧ ∃ d, (read_tsv_and_count_variants (λ _, inr table_with_missing) "summary.tsv"
            empty_world).1 = Return d
       ∧ (total_counted (counts d) ≤ length (rows table_with_missing))%nat.
Proof.
  split; [vm_compute; lia|].
  destruct (X5_no_row_counted_twice (λ _, inr table_with_missing) "summary.tsv"
              empty_world table_with_missing) as (d & Hd & Htot & _);
    [reflexivity|vm_compute; lia|].
  exists d. split; [exact Hd|exact Htot].
Defined.

Lemma count_rows_perm (p : list cell → bool) (rs rs' : list (list cell)) :
  rs ≡ₚ rs' → count_rows p rs = count_rows p rs'.
Proof.
  induction 1 as [|r rs rs' _ IH|r1 r2 rs|rs1 rs2 rs3 _ IH1 _ IH2];
    rewrite ?count_rows_cons; lia.
Qed.

Lemma counts_for_perm cols callers rs rs' :
  rs ≡ₚ rs' → counts_for cols rs callers = counts_for cols rs' callers.
Proof.
  intros Hp. destruct callers as [|c1 [|c2 [|c3 [|c4 cc]]]]; simpl; try done.
  - unfold counts2. by rewrite !(count_rows_perm _ rs rs' Hp).
  - unfold counts3. by rewrite !(count_rows_perm _ rs rs' Hp).
Qed.

Lemma count_table_rows cols rs rs' w :
  counts_for cols rs (recognized_columns cols)
  = counts_for cols rs' (recognized_columns cols) →
  count_table (mkDataFrame cols rs) w = count_table (mkDataFrame cols rs') w.
Proof.
  intros Heq.
  destruct (decide (length (recognized_columns cols) < 2)) as [Hfew|Henough].
  - by rewrite !count_table_few.
  - rewrite !count_table_enough by lia. by rewrite Heq.
Qed.

(** X6: the order of the rows does not matter: the counter ends the same
    way, with the same counts, on a table and on the table with its rows
    in another order. *)
Theorem X6_row_order_irrelevant
    (read_csv read_csv' : string → string + DataFrame) (path : string) (w : world)
    (cols : list string) (rs rs' : list (list cell)) :
  read_csv path = inr (mkDataFrame cols rs) →
  read_csv' path = inr (mkDataFrame cols rs') →
  rs ≡ₚ rs' →
  read_tsv_and_count_variants read_csv path w
  = read_tsv_and_count_variants read_csv' path w.
Proof.
  intros Hread Hread' Hp.
  rewrite (read_tsv_table _ _ _ _ Hread), (read_tsv_table _ _ _ _ Hread').
  by apply count_table_rows, counts_for_perm.
Qed.

Lemma X6_row_order_irrelevant_witness :
  rows scenario_A ≡ₚ reverse (rows scenario_A)
  ∧ read_tsv_and_count_variants (λ _, inr scenario_A) "summary.tsv" empty_world
    = read_tsv_and_count_variants
        (λ _, inr (mkDataFrame (columns scenario_A) (reverse (rows scenario_A))))
        "summary.tsv" empty_world.
Proof.
  split; [symmetry; apply reverse_Permutation|].
  apply (X6_row_order_irrelevant (λ _, inr scenario_A)
           (λ _, inr (mkDataFrame (columns scenario_A) (reverse (rows scenario_A))))
           "summary.tsv" empty_world (columns scenario_A) (rows scenario_A)
           (reverse (rows scenario_A)));
    [reflexivity|reflexivity|symmetry; apply reverse_Permutation].
Defined.

(** Lookup in a sum of two dicts built over the same fixed keys. *)
Ltac dict_sum_eq :=
  apply map_eq; intros ?; rewrite lookup_union_with, !lookup_insert, !lookup_empty;
  repeat case_decide; simplify_eq; done.

Lemma counts_for_app cols callers rs1 rs2 :
  counts_for cols (rs1 ++ rs2) callers
  = union_with (λ a b, Some (a + b))
      (counts_for cols rs1 callers) (counts_for cols rs2 callers).
Proof.
  destruct callers as [|c1 [|c2 [|c3 [|c4 cc]]]]; simpl;
    try (by rewrite (left_id_L ∅ _)).
  - unfold counts2. rewrite !count_rows_app. dict_sum_eq.
  - unfold counts3. rewrite !count_rows_app. dict_sum_eq.
Qed.

(** X7: counting is additive: on two tables with one header put one after
    the other, every bucket holds the sum of the two buckets. *)
Theorem X7_counts_add_over_concatenation
    (read_csv1 read_csv2 read_csv : string → string + DataFrame)
    (path : string) (w : world)
    (cols : list string) (rs1 rs2 : list (list cell)) :
  read_csv1 path = inr (mkDataFrame cols rs1) →
  read_csv2 path = inr (mkDataFrame cols rs2) →
  read_csv path = inr (mkDataFrame cols (rs1 ++ rs2)) →
  (2 ≤ length (select_callers cols).1)%nat →
  ∃ d1 d2 d,
    (read_tsv_and_count_variants read_csv1 path w).1 = Return d1
    ∧ (read_tsv_and_count_variants read_csv2 path w).1 = Return d2
    ∧ (read_tsv_and_count_variants read_csv path w).1 = Return d
    ∧ caller_names d = caller_names d1 ∧ caller_names d = caller_names d2
    ∧ counts d = union_with (λ a b, Some (a + b)) (counts d1) (counts d2).
Proof.
  intros H1 H2 H Hlen. rewrite select_callers_recognized in Hlen. simpl in Hlen.
  rewrite (read_tsv_counted _ _ _ _ H1), (read_tsv_counted _ _ _ _ H2),
    (read_tsv_counted _ _ _ _ H) by done.
  eexists _, _, _. split_and!; try done. simpl. apply counts_for_app.
Qed.

Lemma X7_counts_add_over_concatenation_witness :
  (2 ≤ length (select_callers (columns scenario_A)).1)%nat
  ∧ ∃ d1 d2 d,
      (read_tsv_and_count_variants (λ _, inr scenario_A) "summary.tsv"
         empty_world).1 = Return d1
      ∧ (read_tsv_and_count_variants (λ _, inr scenario_A) "summary.tsv"
           empty_world).1 = Return d2
      ∧ (read_tsv_and_count_variants
           (λ _, inr (mkDataFrame (columns scenario_A)
                        (rows scenario_A ++ rows scenario_A)))
           "summary.tsv" empty_world).1 = Return d
      ∧ counts d = union_with (λ a b, Some (a + b)) (counts d1) (counts d2).
Proof.
  split; [vm_compute; lia|].
  destruct (X7_counts_add_over_concatenation
              (λ _, inr scenario_A) (λ _, inr scenario_A)
              (λ _, inr (mkDataFrame (columns scenario_A)
                           (rows scenario_A ++ rows scenario_A)))
              "summary.tsv" empty_world (columns scenario_A)
              (rows scenario_A) (rows scenario_A))
    as (d1 & d2 & d & H1 & H2 & H & _ & _ & Hsum);
    [reflexivity|reflexivity|reflexivity|vm_compute; lia|].
  exists d1, d2, d. split_and!; [exact H1|exact H2|exact H|exact Hsum].
Defined.

(** X8: whenever the counter returns, [num_callers] is the number of
    caller names, between 2 and 6, the names are the recognized columns
    without repetition, and the keys of the dict are exactly the keys the
    renderer reads for that number: three for two callers, seven for
    three, none for more. *)
Theorem X8_returned_data_is_well_formed
    (read_csv : string → string + DataFrame) (path : string) (w : world)
    (d : data) :
  (read_tsv_and_count_variants read_csv path w).1 = Return d →
  num_callers d = length (caller_names d)
  ∧ (2 ≤ num_callers d ≤ 6)%nat
  ∧ NoDup (caller_names d)
  ∧ dom (counts d) = (list_to_set (required_keys (num_callers d)) : gset string)
  ∧ renderable d = true.
Proof.
  intros Hret. destruct (read_csv path) as [e|df] eqn:Hread.
  { by rewrite (read_tsv_failure _ _ e) in Hret. }
  rewrite (read_tsv_table _ _ _ _ Hread) in Hret. destruct df as [cols rs].
  destruct (decide (length (recognized_columns cols) < 2)) as [Hfew|Henough].
  { by rewrite count_table_few in Hret. }
  rewrite count_table_enough in Hret by lia. injection Hret as <-. simpl.
  pose proof (recognized_length_le cols) as Hle.
  pose proof (dom_counts_for cols rs (recognized_columns cols)) as Hdom.
  split_and!; try done; try lia.
  - apply NoDup_filter, possible_callers_NoDup.
  - unfold renderable. simpl. apply andb_true_iff. split.
    + apply forallb_forall. intros k Hk%list_elem_of_In.
      apply bool_decide_eq_true, elem_of_dom. rewrite Hdom.
      by apply elem_of_list_to_set.
    + apply orb_true_iff. right. by apply bool_decide_eq_true.
Qed.

Lemma X8_returned_data_is_well_formed_witness :
  (read_tsv_and_count_variants (λ _, inr scenario_A) "summary.tsv" empty_world).1
  = Return (counted scenario_A)
  ∧ dom (counts (counted scenario_A))
    = (list_to_set (required_keys (num_callers (counted scenario_A))) : gset string).
Proof.
  split; [reflexivity|].
  apply (X8_returned_data_is_well_formed (λ _, inr scenario_A) "summary.tsv"
           empty_world (counted scenario_A)).
  reflexivity.
Defined.

(** X9: the counter returns exactly when the file was read and at least
    two recognized columns were found; in every other case it ends by
    [sys.exit(1)], so no lookup of a column ever raises. *)
Theorem X9_counter_returns_or_exits
    (read_csv : string → string + DataFrame) (path : string) (w : world) :
  ((∃ d, (read_tsv_and_count_variants read_csv path w).1 = Return d)
   ↔ ∃ df, read_csv path = inr df
         ∧ (2 ≤ length (select_callers (columns df)).1)%nat)
  ∧ ((∃ d, (read_tsv_and_count_variants read_csv path w).1 = Return d)
     ∨ (read_tsv_and_count_variants read_csv path w).1 = SysExit 1).
Proof.
  destruct (read_csv path) as [e|df] eqn:Hread.
  - rewrite (read_tsv_failure _ _ e) by done. simpl. split; [|by right].
    split; [by intros [d ?]|by intros (df & ? & _)].
  - rewrite (read_tsv_table _ _ _ _ Hread). destruct df as [cols rs].
    destruct (decide (length (recognized_columns cols) < 2)) as [Hfew|Henough].
    + rewrite count_table_few by done. simpl. split; [|by right].
      split; [by intros [d ?]|]. intros (df & [= <-] & Hlen).
      rewrite select_callers_recognized in Hlen. simpl in Hlen. lia.
    + rewrite count_table_enough by lia. simpl. split; [|left; by eexists].
      split; [|by eexists]. intros _. eexists. split; [done|].
      rewrite select_callers_recognized. simpl. lia.
Qed.

Lemma counts_for_agree cols callers rs rs' :
  Forall2 (λ r r', ∀ c, c ∈ callers → flag_of cols r c = flag_of cols r' c) rs rs' →
  counts_for cols rs callers = counts_for cols rs' callers.
Proof.
  intros Hrows.
  destruct callers as [|c1 [|c2 [|c3 [|c4 cc]]]]; simpl; try done.
  - assert (∀ a b, count_rows (test2 cols c1 c2 a b) rs
                   = count_rows (test2 cols c1 c2 a b) rs') as Heq.
    { intros a b. induction Hrows as [|r r' rs rs' Hr _ IH]; [done|].
      rewrite !count_rows_cons, IH. unfold test2.
      rewrite (Hr c1), (Hr c2) by set_solver. done. }
    unfold counts2. by rewrite !Heq.
  - assert (∀ a b c, count_rows (test3 cols c1 c2 c3 a b c) rs
                     = count_rows (test3 cols c1 c2 c3 a b c) rs') as Heq.
    { intros a b c. induction Hrows as [|r r' rs rs' Hr _ IH]; [done|].
      rewrite !count_rows_cons, IH. unfold test3.
      rewrite (Hr c1), (Hr c2), (Hr c3) by set_solver. done. }
    unfold counts3. by rewrite !Heq.
Qed.

(** X10: only the selected caller columns are read: two tables with one
    header whose rows agree, one by one, under every selected caller
    column make the counter end the same way, with the same counts,
    whatever their other columns hold. *)
Theorem X10_only_selected_columns_matter
    (read_csv read_csv' : string → string + DataFrame) (path : string) (w : world)
    (cols : list string) (rs rs' : list (list cell)) :
  read_csv path = inr (mkDataFrame cols rs) →
  read_csv' path = inr (mkDataFrame cols rs') →
  Forall2 (λ r r', ∀ c, c ∈ (select_callers cols).1 →
                        flag_of cols r c = flag_of cols r' c) rs rs' →
  read_tsv_and_count_variants read_csv path w
  = read_tsv_and_count_variants read_csv' path w.
Proof.
  intros Hread Hread' Hrows. rewrite select_callers_recognized in Hrows.
  rewrite (read_tsv_table _ _ _ _ Hread), (read_tsv_table _ _ _ _ Hread').
  by apply count_table_rows, counts_for_agree.
Qed.

(** The table of scenario A with a column of positions before the flags. *)
Lemma X10_only_selected_columns_matter_witness :
  read_tsv_and_count_variants
    (λ _, inr (mkDataFrame ["POS"; "Bcftools"; "FreeBayes"]
                 [[CInt 100; CInt 1; CInt 0]; [CInt 200; CInt 1; CInt 1]]))
    "summary.tsv" empty_world
  = read_tsv_and_count_variants
      (λ _, inr (mkDataFrame ["POS"; "Bcftools"; "FreeBayes"]
                   [[CInt 7; CInt 1; CInt 0]; [CStr "x"; CInt 1; CInt 1]]))
      "summary.tsv" empty_world.
Proof.
  apply (X10_only_selected_columns_matter
           (λ _, inr (mkDataFrame ["POS"; "Bcftools"; "FreeBayes"]
                        [[CInt 100; CInt 1; CInt 0]; [CInt 200; CInt 1; CInt 1]]))
           (λ _, inr (mkDataFrame ["POS"; "Bcftools"; "FreeBayes"]
                        [[CInt 7; CInt 1; CInt 0]; [CStr "x"; CInt 1; CInt 1]]))
           "summary.tsv" empty_world ["POS"; "Bcftools"; "FreeBayes"]
           [[CInt 100; CInt 1; CInt 0]; [CInt 200; CInt 1; CInt 1]]
           [[CInt 7; CInt 1; CInt 0]; [CStr "x"; CInt 1; CInt 1]]);
    [reflexivity|reflexivity|].
  repeat constructor; intros c Hc; vm_compute in Hc;
    repeat (apply elem_of_cons in Hc as [->|Hc]; [reflexivity|]);
    by apply elem_of_nil in Hc.
Defined.

(** ** Runs of [main] *)

Lemma first_failure_accepting (calls : list lib_call) :
  first_failure accepting calls = None.
Proof.
  induction calls as [|c calls IH]; [done|]. by rewrite first_failure_cons.
Qed.


Lemma circles2_none (subsets : nat * nat * nat) (args : Args) :
  circles2 subsets args
  = if bool_decide (outline args = "none") then []
    else [venn2_circles subsets (convert_line_style (outline args))
            (outline_width args)].
Proof.
  unfold circles2. pose proof (convert_line_style_empty (outline args)) as Hiff.
  repeat case_bool_decide; try done; tauto.
Qed.

Lemma circles3_none (subsets : nat * nat * nat * nat * nat * nat * nat)
    (args : Args) :
  circles3 subsets args
  = if bool_decide (outline args = "none") then []
    else [venn3_circles subsets (convert_line_style (outline args))
            (outline_width args)].
Proof.
  unfold circles3. pose proof (convert_line_style_empty (outline args)) as Hiff.
  repeat case_bool_decide; try done; tauto.
Qed.

(** X12: on a table with exactly two recognized columns the calls of the
    rendering are [plt.subplots], one two-circle diagram, its outlines
    unless the outline is [none], and [plt.savefig].  The labels of the
    diagram are the two caller names in the order of the fixed list, the
    subsets are the counts of the buckets 10, 01 and 11 in that order,
    and the call is given [normalize_to=None].  When each of these calls
    returns, the run returns with that figure drawn and saved; when one
    raises, the run ends by that exception and no file is saved. *)
Theorem X12_two_caller_diagram
    (read_csv : string → string + DataFrame) (lib : library) (args : Args)
    (w : world) (df : DataFrame) :
  read_csv (input args) = inr df →
  length (select_callers (columns df)).1 = 2 →
  ∃ d n10 n01 n11,
    let fig :=
      venn2 (n10, n01, n11) (caller_names d) (alpha args) None
      :: (if bool_decide (outline args = "none") then []
          else [venn2_circles (n10, n01, n11)
                  (convert_line_style (outline args)) (outline_width args)]) in
    (read_tsv_and_count_variants read_csv (input args) (after_banner args w)).1
    = Return d
    ∧ counts d = {[ "10" := n10; "01" := n01; "11" := n11 ]}
    ∧ match first_failure lib (render_calls args fig) with
      | None =>
          (main read_csv lib args w).1 = Return ()
          ∧ figure (main read_csv lib args w).2 = fig
          ∧ saved (main read_csv lib args w).2
            = saved w ++ [mkSaved (output args) (dpi args) fig]
      | Some e =>
          (main read_csv lib args w).1 = Uncaught (LibraryError e)
          ∧ saved (main read_csv lib args w).2 = saved w
      end.
Proof.
  intros Hread Hlen. rewrite select_callers_recognized in Hlen. simpl in Hlen.
  assert (2 ≤ length (recognized_columns (columns df)))%nat as Henough by lia.
  exists (counted df), (count_of (counts (counted df)) "10"),
    (count_of (counts (counted df)) "01"), (count_of (counts (counted df)) "11").
  cbv zeta. rewrite <- circles2_none.
  assert (figure_of (counted df) args
          = figure2 (caller_names (counted df))
              (count_of (counts (counted df)) "10",
               count_of (counts (counted df)) "01",
               count_of (counts (counted df)) "11") args) as Hfig.
  { unfold figure_of. cbn [counted num_callers].
    by rewrite Hlen, bool_decide_eq_true_2. }
  fold (figure2 (caller_names (counted df))
          (count_of (counts (counted df)) "10",
           count_of (counts (counted df)) "01",
           count_of (counts (counted df)) "11") args).
  rewrite <- Hfig. split_and!.
  - by rewrite (read_tsv_counted _ _ _ _ Hread Henough).
  - unfold counted. cbn [counts].
    destruct (recognized_columns (columns df)) as [|c1 [|c2 [|c3 cc]]];
      try discriminate Hlen.
    cbn [counts_for]. unfold counts2.
    generalize (count_rows (test2 (columns df) c1 c2 1 1) (rows df)),
               (count_rows (test2 (columns df) c1 c2 0 1) (rows df)),
               (count_rows (test2 (columns df) c1 c2 1 0) (rows df)).
    intros a b c. by vm_compute.
  - destruct (first_failure lib _) as [e|] eqn:Hlib.
    + destruct (main_counted_rejected _ _ _ w _ _ Hread Henough Hlib)
        as (fig & _ & ->).
      done.
    + by rewrite (main_counted_accepted _ _ _ w _ Hread Henough Hlib).
Qed.

Lemma X12_two_caller_diagram_witness :
  length (select_callers (columns scenario_A)).1 = 2
  ∧ ∃ d n10 n01 n11,
      (read_tsv_and_count_variants (λ _, inr scenario_A) (input default_args)
         (after_banner default_args empty_world)).1 = Return d
      ∧ counts d = {[ "10" := n10; "01" := n01; "11" := n11 ]}
      ∧ (main (λ _, inr scenario_A) accepting default_args empty_world).1
        = Return ().
Proof.
  split; [reflexivity|].
  destruct (X12_two_caller_diagram (λ _, inr scenario_A) accepting default_args
              empty_world scenario_A) as (d & n10 & n01 & n11 & Hd & Hc & Hm);
    [reflexivity|reflexivity|].
  rewrite first_failure_accepting in Hm. destruct Hm as (Hm & _).
  exists d, n10, n01, n11. split; [exact Hd|]. split; [exact Hc|exact Hm].
Defined.

(** X13: on a table with exactly three recognized columns the calls of
    the rendering are [plt.subplots], one three-circle diagram, its
    outlines unless the outline is [none], and [plt.savefig].  The labels
    of the diagram are the three caller names in the order of the fixed
    list, the subsets are the counts of the buckets in the order 100,
    010, 110, 001, 101, 011, 111, and the colours are the three converted
    colours.  When each of these calls returns, the run returns with that
    figure drawn and saved; when one raises, the run ends by that
    exception and no file is saved. *)
Theorem X13_three_caller_diagram
    (read_csv : string → string + DataFrame) (lib : library) (args : Args)
    (w : world) (df : DataFrame) :
  read_csv (input args) = inr df →
  length (select_callers (columns df)).1 = 3 →
  ∃ d n100 n010 n001 n110 n101 n011 n111,
    let fig :=
      venn3 (n100, n010, n110, n001, n101, n011, n111) (caller_names d)
        (convert_r_color_to_matplotlib (color1 args),
         convert_r_color_to_matplotlib (color2 args),
         convert_r_color_to_matplotlib (color3 args)) (alpha args)
      :: (if bool_decide (outline args = "none") then []
          else [venn3_circles (n100, n010, n110, n001, n101, n011, n111)
                  (convert_line_style (outline args)) (outline_width args)]) in
    (read_tsv_and_count_variants read_csv (input args) (after_banner args w)).1
    = Return d
    ∧ counts d = {[ "100" := n100; "010" := n010; "001" := n001; "110" := n110;
                    "101" := n101; "011" := n011; "111" := n111 ]}
    ∧ match first_failure lib (render_calls args fig) with
      | None =>
          (main read_csv lib args w).1 = Return ()
          ∧ figure (main read_csv lib args w).2 = fig
          ∧ saved (main read_csv lib args w).2
            = saved w ++ [mkSaved (output args) (dpi args) fig]
      | Some e =>
          (main read_csv lib args w).1 = Uncaught (LibraryError e)
          ∧ saved (main read_csv lib args w).2 = saved w
      end.
Proof.
  intros Hread Hlen. rewrite select_callers_recognized in Hlen. simpl in Hlen.
  assert (2 ≤ length (recognized_columns (columns df)))%nat as Henough by lia.
  exists (counted df), (count_of (counts (counted df)) "100"),
    (count_of (counts (counted df)) "010"), (count_of (counts (counted df)) "001"),
    (count_of (counts (counted df)) "110"), (count_of (counts (counted df)) "101"),
    (count_of (counts (counted df)) "011"), (count_of (counts (counted df)) "111").
  cbv zeta. rewrite <- circles3_none.
  assert (figure_of (counted df) args
          = figure3 (caller_names (counted df))
              (count_of (counts (counted df)) "100",
               count_of (counts (counted df)) "010",
               count_of (counts (counted df)) "110",
               count_of (counts (counted df)) "001",
               count_of (counts (counted df)) "101",
               count_of (counts (counted df)) "011",
               count_of (counts (counted df)) "111") args) as Hfig.
  { unfold figure_of. cbn [counted num_callers].
    by rewrite Hlen, bool_decide_eq_false_2, bool_decide_eq_true_2. }
  fold (figure3 (caller_names (counted df))
          (count_of (counts (counted df)) "100",
           count_of (counts (counted df)) "010",
           count_of (counts (counted df)) "110",
           count_of (counts (counted df)) "001",
           count_of (counts (counted df)) "101",
           count_of (counts (counted df)) "011",
           count_of (counts (counted df)) "111") args).
  rewrite <- Hfig. split_and!.
  - by rewrite (read_tsv_counted _ _ _ _ Hread Henough).
  - unfold counted. cbn [counts].
    destruct (recognized_columns (columns df)) as [|c1 [|c2 [|c3 [|c4 cc]]]];
      try discriminate Hlen.
    cbn [counts_for]. unfold counts3.
    generalize (count_rows (test3 (columns df) c1 c2 c3 1 1 1) (rows df)),
               (count_rows (test3 (columns df) c1 c2 c3 0 1 1) (rows df)),
               (count_rows (test3 (columns df) c1 c2 c3 1 0 1) (rows df)),
               (count_rows (test3 (columns df) c1 c2 c3 1 1 0) (rows df)),
               (count_rows (test3 (columns df) c1 c2 c3 0 0 1) (rows df)),
               (count_rows (test3 (columns df) c1 c2 c3 0 1 0) (rows df)),
               (count_rows (test3 (columns df) c1 c2 c3 1 0 0) (rows df)).
    intros a1 a2 a3 a4 a5 a6 a7. by vm_compute.
  - destruct (first_failure lib _) as [e|] eqn:Hlib.
    + destruct (main_counted_rejected _ _ _ w _ _ Hread Henough Hlib)
        as (fig & _ & ->).
      done.
    + by rewrite (main_counted_accepted _ _ _ w _ Hread Henough Hlib).
Qed.

Lemma X13_three_caller_diagram_witness :
  length (select_callers (columns unbalanced_table)).1 = 3
  ∧ (main (λ _, inr unbalanced_table) accepting default_args empty_world).1
    = Return ().
Proof.
  split; [reflexivity|].
  destruct (X13_three_caller_diagram (λ _, inr unbalanced_table) accepting
              default_args empty_world unbalanced_table)
    as (d & n100 & n010 & n001 & n110 & n101 & n011 & n111 & _ & _ & Hm);
    [reflexivity|reflexivity|].
  rewrite first_failure_accepting in Hm. destruct Hm as (Hm & _).
  exact Hm.
Defined.

(** X14: on a table with four or more recognized columns the only calls
    into the libraries are [plt.subplots] and [plt.savefig] of a figure
    on which nothing was drawn.  When both return, the run returns with
    exit status 0: the file saved under the output path holds an empty
    figure, and the summary has its heading and no count.  When one of
    them raises, the run ends by that exception and no file is saved. *)
Theorem X14_more_than_three_callers_blank_figure
    (read_csv : string → string + DataFrame) (lib : library) (args : Args)
    (w : world) (df : DataFrame) :
  read_csv (input args) = inr df →
  3 < length (select_callers (columns df)).1 →
  match first_failure lib [plt_subplots (figsize args);
                           plt_savefig (output args) (dpi args) []] with
  | None =>
      main read_csv lib args w
      = (Return (),
         mkWorld
           (stdout w ++ banner args
              ++ [found_line (recognized_columns (columns df));
                  "Creating " +:+ pretty (length (recognized_columns (columns df)))
                    +:+ "-way Venn diagram...";
                  "Venn diagram saved to: " +:+ output args;
                  newline +:+ "Variant counts:";
                  newline +:+ "Done!"])
           (stderr w) []
           (saved w ++ [mkSaved (output args) (dpi args) []]))
  | Some e =>
      (main read_csv lib args w).1 = Uncaught (LibraryError e)
      ∧ saved (main read_csv lib args w).2 = saved w
  end.
Proof.
  intros Hread Hlen. rewrite select_callers_recognized in Hlen. simpl in Hlen.
  assert (2 ≤ length (recognized_columns (columns df)))%nat as Henough by lia.
  assert (figure_of (counted df) args = []) as Hfig.
  { unfold figure_of. cbn [counted num_callers].
    by rewrite !bool_decide_eq_false_2 by lia. }
  change [plt_subplots (figsize args); plt_savefig (output args) (dpi args) []]
    with (render_calls args []).
  rewrite <- Hfig.
  destruct (first_failure lib _) as [e|] eqn:Hlib.
  - destruct (main_counted_rejected _ _ _ w _ _ Hread Henough Hlib)
      as (fig & _ & ->).
    done.
  - rewrite (main_counted_accepted _ _ _ w _ Hread Henough Hlib).
    unfold final_world, summary_of. rewrite Hfig.
    cbn [counted caller_names num_callers].
    by rewrite !bool_decide_eq_false_2 by lia.
Qed.

Lemma X14_more_than_three_callers_blank_figure_witness :
  3 < length (select_callers (columns four_caller_table)).1
  ∧ figure (main (λ _, inr four_caller_table) accepting default_args empty_world).2
    = []
  ∧ saved (main (λ _, inr four_caller_table) accepting default_args empty_world).2
    = [mkSaved "venn.png" 300 []].
Proof.
  split; [vm_compute; lia|].
  pose proof (X14_more_than_three_callers_blank_figure (λ _, inr four_caller_table)
                accepting default_args empty_world four_caller_table) as Hrun.
  rewrite first_failure_accepting in Hrun.
  rewrite Hrun; [split; reflexivity|reflexivity|vm_compute; lia].
Defined.

(** ** The renderer on arbitrary data *)

(** X15: when the data lack a key that the renderer reads for two or for
    three callers, and [plt.subplots] returns, the renderer ends by the
    [KeyError] of the first such key in reading order, before any drawing
    call and before any file is saved; when [plt.subplots] raises, the
    renderer ends by that exception and has changed nothing. *)
Theorem X15_missing_count_raises_key_error
    (lib : library) (d : data) (args : Args) (w : world) (k : string) :
  first_missing (counts d) (required_keys (num_callers d)) = Some k →
  create_venn_diagram lib d args w
  = match lib (plt_subplots (figsize args)) with
    | Some e => (Uncaught (LibraryError e), w)
    | None => (Uncaught (KeyError k), fresh_figure w)
    end.
Proof. intros Hk. by rewrite create_venn_diagram_cases, Hk. Qed.

Lemma X15_missing_count_raises_key_error_witness :
  create_venn_diagram accepting
    (mkData ["Bcftools"; "FreeBayes"] {[ "10" := 2 ]} 2) default_args empty_world
  = (Uncaught (KeyError "01"), empty_world).
Proof.
  apply (X15_missing_count_raises_key_error accepting
           (mkData ["Bcftools"; "FreeBayes"] {[ "10" := 2 ]} 2)
           default_args empty_world "01").
  reflexivity.
Defined.

(** X17: the renderer returns exactly when the data hold every count it
    reads and, for two or three callers, at least as many names as
    callers, and each call of the rendering into the libraries returns.
    On data that lack a count or a name it never returns, whatever the
    libraries do. *)
Theorem X17_renderer_returns_iff_renderable
    (lib : library) (d : data) (args : Args) (w : world) :
  (create_venn_diagram lib d args w).1 = Return ()
  ↔ renderable d = true
    ∧ first_failure lib (render_calls args (figure_of d args)) = None.
Proof.
  rewrite renderable_spec.
  destruct (first_missing (counts d) (required_keys (num_callers d)))
    as [k|] eqn:Hkeys.
  { rewrite create_venn_diagram_cases, Hkeys.
    split; [|by intros [[[=] _] _]].
    by destruct (lib (plt_subplots (figsize args))). }
  pose proof (create_venn_diagram_run lib d args w Hkeys) as Hrun.
  destruct (first_failure lib _) as [e|].
  { destruct Hrun as (fig & _ & ->). split; [done|by intros [_ [=]]]. }
  rewrite Hrun. split.
  - intros Hret. split; [|done]. split; [done|]. intros Hn.
    destruct (decide (length (caller_names d) < num_callers d)); [|lia].
    by rewrite print_summary_short_names in Hret.
  - intros [[_ Hnames] _]. by apply print_summary_returns.
Qed.


(** X19: no file that a run of [main] saves holds a library call that
    was given a [normalize_to]: every saved file was there before or is
    the one under the output path, and none of its calls asks for a
    rescaling. *)
Theorem X19_main_never_asks_for_rescaling
    (read_csv : string → string + DataFrame) (lib : library) (args : Args)
    (w : world) (f : saved_file) :
  f ∈ saved (main read_csv lib args w).2 →
  f ∈ saved w ∨ (saved_path f = output args ∧ no_rescale (saved_calls f)).
Proof.
  destruct (read_csv (input args)) as [e|df] eqn:Hread.
  { rewrite (main_exits _ _ _ _ _ _ (read_tsv_failure _ _ e _ Hread)). by left. }
  destruct (decide (length (recognized_columns (columns df)) < 2)) as [Hfew|Hlen].
  { destruct df as [cols rs]. cbn [columns] in Hfew.
    pose proof (count_table_few cols rs (after_banner args w) Hfew) as Hexit.
    rewrite <- (read_tsv_table _ _ _ _ Hread) in Hexit.
    rewrite (main_exits _ _ _ _ _ _ Hexit). by left. }
  assert (2 ≤ length (recognized_columns (columns df)))%nat as Henough by lia.
  destruct (first_failure lib (render_calls args (figure_of (counted df) args)))
    as [e|] eqn:Hlib.
  - destruct (main_counted_rejected _ _ _ w _ _ Hread Henough Hlib)
      as (fig & _ & ->).
    by left.
  - rewrite (main_counted_accepted _ _ _ w _ Hread Henough Hlib).
    unfold final_world. cbn [snd saved].
    intros [Hf|Hf%list_elem_of_singleton]%elem_of_app; [by left|].
    right. subst f. split; [done|]. apply figure_of_no_rescale.
Qed.

Lemma X19_main_never_asks_for_rescaling_witness :
  mkSaved "venn.png" 300
    [venn3 (12, 1, 0, 0, 0, 0, 0) ["Bcftools"; "FreeBayes"; "GATK"]
           ("#456f01", "#00688B", "#ffac12") (1 # 2);
     venn3_circles (12, 1, 0, 0, 0, 0, 0) "-" (2 # 1)]
  ∈ saved (main (λ _, inr unbalanced_table) accepting default_args empty_world).2
  ∧ no_rescale
      [venn3 (12, 1, 0, 0, 0, 0, 0) ["Bcftools"; "FreeBayes"; "GATK"]
             ("#456f01", "#00688B", "#ffac12") (1 # 2);
       venn3_circles (12, 1, 0, 0, 0, 0, 0) "-" (2 # 1)].
Proof.
  assert (mkSaved "venn.png" 300
            [venn3 (12, 1, 0, 0, 0, 0, 0) ["Bcftools"; "FreeBayes"; "GATK"]
                   ("#456f01", "#00688B", "#ffac12") (1 # 2);
             venn3_circles (12, 1, 0, 0, 0, 0, 0) "-" (2 # 1)]
          ∈ saved (main (λ _, inr unbalanced_table) accepting default_args
                     empty_world).2)
    as Hin by (vm_compute; left).
  split; [exact Hin|].
  destruct (X19_main_never_asks_for_rescaling (λ _, inr unbalanced_table)
              accepting default_args empty_world _ Hin) as [Hold|[_ Hno]].
  - vm_compute in Hold. by apply elem_of_nil in Hold.
  - exact Hno.
Defined.

(** X20: the hint is computed for three callers only and changes nothing
    in the state; with the seven counts present it is 'region' exactly
    when the largest count exceeds ten times the smallest non-zero count,
    and absent otherwise (also when all seven counts are 0). *)
Theorem X20_hint_is_region_iff_unbalanced
    (counts : gmap string nat) (n : nat) (w : world) :
  (n ≠ 3 → normalize_hint counts n w = (Return None, w))
  ∧ (first_missing counts (required_keys 3) = None →
     ∃ nt, normalize_hint counts 3 w = (Return nt, w)
         ∧ (nt = Some "region" ∨ nt = None)
         ∧ (nt = Some "region"
            ↔ ∃ largest smallest,
                (largest ∈ count_of counts <$> required_keys 3
                 ∧ ∀ y, y ∈ count_of counts <$> required_keys 3 → (y ≤ largest)%nat)
                ∧ (smallest ∈ count_of counts <$> required_keys 3 ∧ 0 < smallest
                   ∧ ∀ y, y ∈ count_of counts <$> required_keys 3 → 0 < y →
                          (smallest ≤ y)%nat)
                ∧ 10 * smallest < largest)).
Proof.
  split; [apply normalize_hint_not_3|].
  intros Hkeys. rewrite first_missing_none in Hkeys.
  destruct (Hkeys "100") as [c100 E100]; [by vm_compute; set_solver|].
  destruct (Hkeys "010") as [c010 E010]; [by vm_compute; set_solver|].
  destruct (Hkeys "001") as [c001 E001]; [by vm_compute; set_solver|].
  destruct (Hkeys "110") as [c110 E110]; [by vm_compute; set_solver|].
  destruct (Hkeys "101") as [c101 E101]; [by vm_compute; set_solver|].
  destruct (Hkeys "011") as [c011 E011]; [by vm_compute; set_solver|].
  destruct (Hkeys "111") as [c111 E111]; [by vm_compute; set_solver|].
  eexists. split; [by eapply normalize_hint_3|].
  assert (count_of counts <$> required_keys 3
          = [c100; c010; c001; c110; c101; c011; c111]) as ->.
  { unfold required_keys. rewrite bool_decide_eq_false_2, bool_decide_eq_true_2 by done.
    cbn [fmap list_fmap].
    by rewrite (count_of_some _ _ _ E100), (count_of_some _ _ _ E010),
      (count_of_some _ _ _ E001), (count_of_some _ _ _ E110),
      (count_of_some _ _ _ E101), (count_of_some _ _ _ E011),
      (count_of_some _ _ _ E111). }
  split; [|apply hint_of_region].
  unfold hint_of. case_bool_decide; auto.
Qed.

Lemma X20_hint_is_region_iff_unbalanced_witness :
  first_missing (counts unbalanced_data) (required_keys 3) = None
  ∧ ∃ nt, normalize_hint (counts unbalanced_data) 3 empty_world
          = (Return nt, empty_world)
        ∧ (nt = Some "region" ∨ nt = None).
Proof.
  split; [reflexivity|].
  destruct (X20_hint_is_region_iff_unbalanced (counts unbalanced_data) 3 empty_world)
    as [_ Hthree].
  destruct (Hthree eq_refl) as (nt & Hnt & Hcases & _).
  exists nt. split; [exact Hnt|exact Hcases].
Defined.
